(** * Busy-record flyers of ipython_mintvm, embedded in Rocq

    Shallow embedding of the three notebook classes

    - [MyFlyer]            (the notebook on the flyer for the busy record),
    - [BusyFlyerDevice]    (notebooks/issue3.ipynb),
    - [TaxiFlyScanDevice]  (notebooks/busy_fly_scan.ipynb),

    together with the small part of their environment that the methods
    touch: the EPICS busy record, the three waveform records, the Python
    store of [DeviceStatus] objects and the wall clock.

    Python floats are IEEE binary64 numbers, modelled by primitive floats.
    Python dictionaries are finite maps, Python lists are lists, object
    identity is an address in a store.  Calls to [logger.info] change
    nothing that is modelled here and are left out. *)

From Stdlib Require Import Floats.PrimFloat.
From Stdlib Require Import ZArith Lia.
From stdpp Require Import base option list gmap strings.

Set Warnings "-inexact-float".
Set Default Proof Using "Type".

Local Open Scope string_scope.
Local Open Scope list_scope.

(** ** Values shared by the notebooks *)

(** [class BusyStatus(str, enum.Enum)]: the members are strings as well. *)
Inductive BusyStatus := busy | done.

Definition BusyStatus_value (s : BusyStatus) : string :=
  match s with
  | busy => "Busy"
  | done => "Done"
  end.

(** Python's [a in b] for two strings: [a] occurs in [b] as a substring.
    This is what [x in (BusyStatus.done)] evaluates, the parentheses
    around a single expression building no tuple. *)
Fixpoint str_in (a b : string) : bool :=
  String.prefix a b ||
  match b with
  | EmptyString => false
  | String _ b' => str_in a b'
  end.

(** The exceptions the modelled code raises. *)
Inductive exn :=
| RuntimeError (msg : string)
| IndexError
| KeyError (key : string)
| AttributeError.

(** [class MyWaveform(ophyd.Device)]: the array, [.NELM] and [.NORD]. *)
Record MyWaveform := {
  wave : list float;
  number_elements : Z;
  number_read : Z
}.

(** Modelled from the spec: the CompletionFuture of section 4.3, which is
    ophyd's [DeviceStatus]; a resolved flag and a success flag, both false
    when the object is created. *)
Record DeviceStatus := {
  st_done : bool;
  st_success : bool
}.

Definition fresh_status : DeviceStatus :=
  {| st_done := false; st_success := false |}.

(** A closure [cb] made by one call of [kickoff].  The closure captures
    [self] and nothing else; [installed_with] only remembers which
    completion status was current when the closure was made, so that
    statements can tell the watchers of different cycles apart.  No code
    below reads it. *)
Record Callback := { installed_with : nat }.

(** What the device asks of its environment, in program order. *)
Inductive Action :=
| NewStatus (ref : nat)
| Resolve (ref : nat) (success : bool)
| Subscribe (cb : Callback)
| ReadClock (tick : nat)
| Put (value : string).

(** One event document yielded by [collect]. *)
Record Doc := {
  time : float;
  data : gmap string float;
  timestamps : gmap string float
}.

(** ** The state the methods act on *)

Record State := {
  (* the EPICS side *)
  busy_value : string;            (* string value of the busy record *)
  link_up : bool;                 (* does a put reach the record? *)
  t_array : MyWaveform;           (* TIME_WAVE_PV *)
  x_array : MyWaveform;           (* X_WAVE_PV *)
  y_array : MyWaveform;           (* Y_WAVE_PV *)
  subscribers : list Callback;    (* callbacks subscribed to the busy value *)
  (* the Python side *)
  name : string;                  (* self.name *)
  heap : list DeviceStatus;       (* every DeviceStatus made so far *)
  completion_status : option nat; (* self._completion_status / self.complete_status *)
  t0 : float;                     (* self.t0 *)
  (* the wall clock: the n-th call of time.time() returns [clock n] *)
  clock : nat -> float;
  ticks : nat;
  (* program-order log of the actions above *)
  trace : list Action
}.

Definition set_busy_value (v : string) (s : State) : State :=
  {| busy_value := v; link_up := link_up s; t_array := t_array s;
     x_array := x_array s; y_array := y_array s;
     subscribers := subscribers s; name := name s; heap := heap s;
     completion_status := completion_status s; t0 := t0 s;
     clock := clock s; ticks := ticks s; trace := trace s |}.

Definition set_arrays (t x y : MyWaveform) (s : State) : State :=
  {| busy_value := busy_value s; link_up := link_up s; t_array := t;
     x_array := x; y_array := y;
     subscribers := subscribers s; name := name s; heap := heap s;
     completion_status := completion_status s; t0 := t0 s;
     clock := clock s; ticks := ticks s; trace := trace s |}.

Definition set_subscribers (l : list Callback) (s : State) : State :=
  {| busy_value := busy_value s; link_up := link_up s; t_array := t_array s;
     x_array := x_array s; y_array := y_array s;
     subscribers := l; name := name s; heap := heap s;
     completion_status := completion_status s; t0 := t0 s;
     clock := clock s; ticks := ticks s; trace := trace s |}.

Definition set_heap (h : list DeviceStatus) (s : State) : State :=
  {| busy_value := busy_value s; link_up := link_up s; t_array := t_array s;
     x_array := x_array s; y_array := y_array s;
     subscribers := subscribers s; name := name s; heap := h;
     completion_status := completion_status s; t0 := t0 s;
     clock := clock s; ticks := ticks s; trace := trace s |}.

Definition set_completion_status (c : option nat) (s : State) : State :=
  {| busy_value := busy_value s; link_up := link_up s; t_array := t_array s;
     x_array := x_array s; y_array := y_array s;
     subscribers := subscribers s; name := name s; heap := heap s;
     completion_status := c; t0 := t0 s;
     clock := clock s; ticks := ticks s; trace := trace s |}.

Definition set_t0 (t : float) (s : State) : State :=
  {| busy_value := busy_value s; link_up := link_up s; t_array := t_array s;
     x_array := x_array s; y_array := y_array s;
     subscribers := subscribers s; name := name s; heap := heap s;
     completion_status := completion_status s; t0 := t;
     clock := clock s; ticks := ticks s; trace := trace s |}.

Definition set_ticks (n : nat) (s : State) : State :=
  {| busy_value := busy_value s; link_up := link_up s; t_array := t_array s;
     x_array := x_array s; y_array := y_array s;
     subscribers := subscribers s; name := name s; heap := heap s;
     completion_status := completion_status s; t0 := t0 s;
     clock := clock s; ticks := n; trace := trace s |}.

Definition log (a : Action) (s : State) : State :=
  {| busy_value := busy_value s; link_up := link_up s; t_array := t_array s;
     x_array := x_array s; y_array := y_array s;
     subscribers := subscribers s; name := name s; heap := heap s;
     completion_status := completion_status s; t0 := t0 s;
     clock := clock s; ticks := ticks s; trace := trace s ++ [a] |}.

(** ** A state and exception monad

    A Python exception leaves the changes made before it in place, so a
    raised result carries the state as well. *)

Inductive result (A : Type) :=
| Ok (a : A)
| Raise (e : exn).
Arguments Ok {A} a.
Arguments Raise {A} e.

Definition M (A : Type) : Type := State -> result A * State.

Definition ret {A} (a : A) : M A := fun s => (Ok a, s).

Definition raise {A} (e : exn) : M A := fun s => (Raise e, s).

Definition bind {A B} (m : M A) (k : A -> M B) : M B :=
  fun s =>
    match m s with
    | (Ok a, s') => k a s'
    | (Raise e, s') => (Raise e, s')
    end.

Definition gets {A} (f : State -> A) : M A := fun s => (Ok (f s), s).

Definition modify (f : State -> State) : M unit := fun s => (Ok tt, f s).

#[global] Instance M_ret : MRet M := @ret.
#[global] Instance M_bind : MBind M := fun A B k m => bind m k.

(** Did a call end in an exception? *)
Definition fails {A} (r : result A * State) : Prop :=
  exists e, fst r = Raise e.

(** [l[i]] for a non-negative index. *)
Definition index (l : list float) (i : nat) : M float :=
  match l !! i with
  | Some v => ret v
  | None => raise IndexError
  end.

(** [time.time()] *)
Definition time_time : M float :=
  fun s => (Ok (clock s (ticks s)),
            log (ReadClock (ticks s)) (set_ticks (S (ticks s)) s)).

(** Modelled from the spec: [ophyd.DeviceStatus(...)] creates a new,
    unresolved CompletionFuture (section 4.3).  Its address is the next
    free slot of the store. *)
Definition new_DeviceStatus : M nat :=
  fun s => let r := length (heap s) in
           (Ok r, log (NewStatus r) (set_heap (heap s ++ [fresh_status]) s)).

(** Modelled from the spec: [status._finished(success=...)] is [resolve]
    of section 4.3; the first call sets both flags and later calls are
    ignored. *)
Definition _finished (r : nat) (success : bool) : M unit :=
  fun s =>
    match heap s !! r with
    | Some d =>
        if st_done d then (Ok tt, s)
        else (Ok tt, log (Resolve r success)
                       (set_heap (<[r := {| st_done := true;
                                            st_success := success |}]> (heap s)) s))
    | None => (Ok tt, s)
    end.

(** Modelled from the spec: [signal.put(v)] sends a request and does not
    wait for it; a write that is lost changes nothing and is not reported
    (section 4.1). *)
Definition put (v : string) : M unit :=
  modify (fun s => log (Put v) (if link_up s then set_busy_value v s else s)).

(** The body shared by both [cb] closures:
    [if busy.value in (BusyStatus.done): status._finished(success=True)],
    where [status] is the attribute of [self] at the time of the call.
    On [None] the attribute access raises. *)
Definition cb (_ : Callback) : M unit :=
  v ← gets busy_value;
  if str_in v (BusyStatus_value done) then
    c ← gets completion_status;
    match c with
    | Some r => _finished r true
    | None => raise AttributeError
    end
  else ret tt.

(** Modelled from the spec: [signal.subscribe(cb)] registers the callback
    for every later change of the value (section 4.1).  As ophyd does, it
    also runs the callback once, at once, on the value the signal holds
    at that moment; the run stored in the notebook of [MyFlyer] shows it,
    its [complete] never waits.  Both [kickoff]s set the completion
    status before they subscribe, so the callback finds it and raises
    nothing there; the state it leaves is the state after [subscribe]. *)
Definition subscribe (c : Callback) : M unit :=
  modify (fun s => log (Subscribe c) (set_subscribers (subscribers s ++ [c]) s));;
  modify (fun s => snd (cb c s)).

(** The notification context: run every subscribed callback in turn; an
    exception inside one callback does not reach the others. *)
Fixpoint run_callbacks (l : list Callback) (s : State) : State :=
  match l with
  | [] => s
  | c :: l' => run_callbacks l' (snd (cb c s))
  end.

(** The remote controller changes the busy record to [v]; every
    subscriber is told. *)
Definition notify (v : string) (s : State) : State :=
  let s' := set_busy_value v s in
  run_callbacks (subscribers s') s'.

(** ** Generators *)

(** Where a [collect] generator is suspended: not yet entered, inside the
    loop over [range(n)] about to run index [i], or finished. *)
Inductive gen_state :=
| Unstarted
| Suspended (n i : nat)
| Exhausted.

(** [list(g)]: advance the generator until it stops.  [None] is running
    out of fuel; an exception ends the call. *)
Fixpoint list_of (next : gen_state -> M (option Doc * gen_state))
    (fuel : nat) (g : gen_state) : M (option (list Doc)) :=
  match fuel with
  | O => ret None
  | S fuel' =>
      r ← next g;
      match r with
      | (None, _) => ret (Some [])
      | (Some d, g') =>
          rest ← list_of next fuel' g';
          ret (cons d <$> rest)
      end
  end.

(** A device that has just been constructed: no status object exists, no
    callback is subscribed, the clock has not been read. *)
Definition connected (nm busy_now : string) (up : bool)
    (t x y : MyWaveform) (clk : nat -> float) : State :=
  {| busy_value := busy_now; link_up := up; t_array := t; x_array := x;
     y_array := y; subscribers := []; name := nm; heap := [];
     completion_status := None; t0 := 0%float; clock := clk; ticks := 0;
     trace := [] |}.

(** A waveform record that holds exactly the values [l]. *)
Definition waveform (l : list float) : MyWaveform :=
  {| wave := l; number_elements := 256; number_read := Z.of_nat (length l) |}.

(** ** [class MyFlyer(ophyd.Device)] *)
Module MyFlyer.

Definition __init__ : M unit :=
  modify (set_completion_status None);;
  modify (set_t0 0%float).

Definition kickoff : M nat :=
  s ← new_DeviceStatus;
  modify (set_completion_status (Some s));;
  subscribe {| installed_with := s |};;
  t ← time_time;
  modify (set_t0 t);;
  put (BusyStatus_value busy);;
  kickoff_status ← new_DeviceStatus;
  _finished kickoff_status true;;
  ret kickoff_status.

Definition complete : M nat :=
  c ← gets completion_status;
  match c with
  | None => raise (RuntimeError "No collection in progress")
  | Some r => ret r
  end.

(** The loop body of [collect] at index [i], up to its [yield].  The
    source reads the arrays through the module-level name [ifly], not
    through [self]; every [MyFlyer] is connected to the same three
    waveform records, which are the arrays of the state.  In
    [dict(time=..., data=..., timestamps=...)] the clock is read first for
    [time] and then for the time value. *)
Definition collect_body (i : nat) : M Doc :=
  t ← (w ← gets t_array; index (wave w) i);
  x ← (w ← gets x_array; index (wave w) i);
  y ← (w ← gets y_array; index (wave w) i);
  now ← time_time;
  now' ← time_time;
  start ← gets t0;
  ret {| time := now;
         data := {[ "ifly_tArr" := (now' - start)%float;
                    "ifly_xArr" := x;
                    "ifly_yArr" := y ]};
         timestamps := {[ "ifly_tArr" := t;
                          "ifly_xArr" := t;
                          "ifly_yArr" := t ]} |}.

Definition collect_loop (n i : nat) : M (option Doc * gen_state) :=
  if (i <? n)%nat then
    d ← collect_body i;
    ret (Some d, Suspended n (S i))
  else ret (None, Exhausted).

(** Calling [collect()] runs nothing; it makes a generator. *)
Definition collect : gen_state := Unstarted.

(** One [next] on the generator.  The status is set to [None] and
    [range(len(tArr.wave.value))] is evaluated when the body is entered,
    the arrays are read again at every index. *)
Definition collect_next (g : gen_state) : M (option Doc * gen_state) :=
  match g with
  | Unstarted =>
      modify (set_completion_status None);;
      w ← gets t_array;
      collect_loop (length (wave w)) 0
  | Suspended n i => collect_loop n i
  | Exhausted => ret (None, Exhausted)
  end.

End MyFlyer.

(** ** [class BusyFlyerDevice(ophyd.Device)] *)
Module BusyFlyerDevice.

(** [self.waves = (self.time, self.axis, self.signal)], each with the
    name ophyd gives a component: the device name, an underscore and the
    attribute name. *)
Definition waves (s : State) : list (string * MyWaveform) :=
  [ (name s +:+ "_time", t_array s);
    (name s +:+ "_axis", x_array s);
    (name s +:+ "_signal", y_array s) ].

Definition __init__ : M unit :=
  modify (set_completion_status None);;
  t ← time_time;
  modify (set_t0 t).

Definition kickoff : M nat :=
  s ← new_DeviceStatus;
  modify (set_completion_status (Some s));;
  t ← time_time;
  modify (set_t0 t);;
  put (BusyStatus_value busy);;
  subscribe {| installed_with := s |};;
  kickoff_status ← new_DeviceStatus;
  _finished kickoff_status true;;
  ret kickoff_status.

(** No check: the attribute is returned as it is, [None] included. *)
Definition complete : M (option nat) :=
  gets completion_status.

(** [for item in self.waves: data[item.name] = item.wave.value[i];
    timestamps[item.name] = t] *)
Fixpoint fill (ws : list (string * MyWaveform)) (i : nat) (t : float)
    (acc : gmap string float * gmap string float)
    : M (gmap string float * gmap string float) :=
  match ws with
  | [] => ret acc
  | (nm, w) :: ws' =>
      v ← index (wave w) i;
      fill ws' i t (<[nm := v]> (fst acc), <[nm := t]> (snd acc))
  end.

(** The loop body of [collect] at index [i], up to its [yield]:
    [t = time.time()], the loop over [self.waves],
    [data[self.time.name] -= self.t0], and the clock read again for
    [time]. *)
Definition collect_body (i : nat) : M Doc :=
  t ← time_time;
  ws ← gets waves;
  filled ← fill ws i t (∅, ∅);
  key ← gets (fun s => name s +:+ "_time");
  start ← gets t0;
  shifted ← match fst filled !! key with
            | Some v => ret (<[key := (v - start)%float]> (fst filled))
            | None => raise (KeyError key)
            end;
  now ← time_time;
  ret {| time := now; data := shifted; timestamps := snd filled |}.

Definition collect_loop (n i : nat) : M (option Doc * gen_state) :=
  if (i <? n)%nat then
    d ← collect_body i;
    ret (Some d, Suspended n (S i))
  else ret (None, Exhausted).

Definition collect : gen_state := Unstarted.

(** [range(int(self.time.number_read.value))] is evaluated when the
    body is entered. *)
Definition collect_next (g : gen_state) : M (option Doc * gen_state) :=
  match g with
  | Unstarted =>
      modify (set_completion_status None);;
      w ← gets t_array;
      collect_loop (Z.to_nat (number_read w)) 0
  | Suspended n i => collect_loop n i
  | Exhausted => ret (None, Exhausted)
  end.

End BusyFlyerDevice.

(** ** [class TaxiFlyScanDevice(ophyd.Device)] *)
Module TaxiFlyScanDevice.

Inductive Signal := taxi | fly.

(** The messages a plan hands to the RunEngine.  [set] and [wait] are
    the two that [mv] yields; the others are the messages by which a
    plan takes data. *)
Inductive Msg :=
| set (obj : Signal) (value : string) (group : nat)
| wait (group : nat)
| read (obj : Signal)
| kickoff (obj : Signal)
| complete (obj : Signal)
| collect (obj : Signal).

Definition takes_data (m : Msg) : bool :=
  match m with
  | set _ _ _ | wait _ => false
  | read _ | kickoff _ | complete _ | collect _ => true
  end.

(** The state strings of the two records, [enum_strs]. *)
Record Device := {
  taxi_enum_strs : list string;
  fly_enum_strs : list string
}.

(** Both are busy records: state 0 is Done and state 1 is Busy. *)
Definition busy_records : Device :=
  {| taxi_enum_strs := ["Done"; "Busy"]; fly_enum_strs := ["Done"; "Busy"] |}.

(** Modelled from the spec: [bluesky.plan_stubs.mv(obj, value)] writes
    the value and blocks until the move is done (section 4.5); as the
    message log of the notebook shows, it yields one [set] in a group of
    its own and one [wait] on that group. *)
Definition mv (obj : Signal) (value : string) (group : nat) : list Msg :=
  [set obj value group; wait group].

(** [plan(self)]: the messages the generator yields, and the exception
    that ends it if [enum_strs[1]] does not exist.  The second index
    expression is evaluated only after the first [mv] is exhausted. *)
Definition plan (d : Device) : list Msg * option exn :=
  match taxi_enum_strs d !! 1%nat with
  | None => ([], Some IndexError)
  | Some start_taxi =>
      match fly_enum_strs d !! 1%nat with
      | None => (mv taxi start_taxi 0, Some IndexError)
      | Some start_fly =>
          ((mv taxi start_taxi 0 ++ mv fly start_fly 1)%list, None)
      end
  end.

(** One remote record: its value, and whether a write with
    [put_complete=True] is still to be completed by the record. *)
Record Pv := { value : string; moving : bool }.

Inductive Event :=
| Wrote (obj : Signal) (v : string)
| Reached (obj : Signal) (v : string)
| TookData (obj : Signal).

Record Run := {
  todo : list Msg;               (* what the plan has still to yield *)
  taxi_pv : Pv;
  fly_pv : Pv;
  groups : list (nat * Signal);  (* status objects, by group *)
  history : list Event
}.

Definition pv (o : Signal) (r : Run) : Pv :=
  match o with taxi => taxi_pv r | fly => fly_pv r end.

Definition with_pv (o : Signal) (p : Pv) (r : Run) : Run :=
  match o with
  | taxi => {| todo := todo r; taxi_pv := p; fly_pv := fly_pv r;
               groups := groups r; history := history r |}
  | fly => {| todo := todo r; taxi_pv := taxi_pv r; fly_pv := p;
              groups := groups r; history := history r |}
  end.

Definition yielded (rest : list Msg) (gs : list (nat * Signal))
    (e : list Event) (r : Run) : Run :=
  {| todo := rest; taxi_pv := taxi_pv r; fly_pv := fly_pv r;
     groups := gs; history := (history r ++ e)%list |}.

(** Modelled from the spec: the RunEngine and the remote records of
    section 4.5.  A [set] writes the value and returns; the record
    completes the write when its sequence record puts it back to Done
    (the database of the notebook: [STR1] is Done, [LNK1] is the busy
    record); a [wait] goes on only when every status of its group is
    complete. *)
Inductive step : Run -> Run -> Prop :=
| step_set r o v g rest :
    todo r = set o v g :: rest ->
    step r (with_pv o {| value := v; moving := true |}
              (yielded rest ((g, o) :: groups r) [Wrote o v] r))
| step_wait r g rest :
    todo r = wait g :: rest ->
    (forall o, (g, o) ∈ groups r -> moving (pv o r) = false) ->
    step r (yielded rest (groups r) [] r)
| step_data r m o rest :
    todo r = m :: rest ->
    m = read o \/ m = kickoff o \/ m = complete o \/ m = collect o ->
    step r (yielded rest (groups r) [TookData o] r)
| step_remote r o :
    moving (pv o r) = true ->
    step r (with_pv o {| value := "Done"; moving := false |}
              (yielded (todo r) (groups r) [Reached o "Done"] r)).

(** [RE(ifly.plan())] with both records at rest. *)
Definition RE (msgs : list Msg) (taxi_now fly_now : string) : Run :=
  {| todo := msgs;
     taxi_pv := {| value := taxi_now; moving := false |};
     fly_pv := {| value := fly_now; moving := false |};
     groups := []; history := [] |}.

(** What the invariant of a run looks at. *)
Definition view (r : Run)
    : list Msg * bool * bool * list (nat * Signal) * list Event :=
  (todo r, moving (taxi_pv r), moving (fly_pv r), groups r, history r).

(** The seven stages that a run of the two moves goes through. *)
Definition stages (a b : string)
    : list (list Msg * bool * bool * list (nat * Signal) * list Event) :=
  [ ((mv taxi a 0 ++ mv fly b 1)%list, false, false, [], []);
    (wait 0 :: mv fly b 1, true, false, [(0, taxi)], [Wrote taxi a]);
    (wait 0 :: mv fly b 1, false, false, [(0, taxi)],
      [Wrote taxi a; Reached taxi "Done"]);
    (mv fly b 1, false, false, [(0, taxi)],
      [Wrote taxi a; Reached taxi "Done"]);
    ([wait 1], false, true, [(1, fly); (0, taxi)],
      [Wrote taxi a; Reached taxi "Done"; Wrote fly b]);
    ([wait 1], false, false, [(1, fly); (0, taxi)],
      [Wrote taxi a; Reached taxi "Done"; Wrote fly b; Reached fly "Done"]);
    ([], false, false, [(1, fly); (0, taxi)],
      [Wrote taxi a; Reached taxi "Done"; Wrote fly b; Reached fly "Done"]) ].

End TaxiFlyScanDevice.

(** ** Auxiliary definitions for the statements below *)

#[global] Instance float_inhabited : Inhabited float := populate 0%float.

Definition resolved : DeviceStatus := {| st_done := true; st_success := true |}.

(** The state after [m] more readings of the clock and nothing else. *)
Definition after_reads (m : nat) (s : State) : State :=
  {| busy_value := busy_value s; link_up := link_up s; t_array := t_array s;
     x_array := x_array s; y_array := y_array s;
     subscribers := subscribers s; name := name s; heap := heap s;
     completion_status := completion_status s; t0 := t0 s;
     clock := clock s; ticks := ticks s + m;
     trace := trace s ++ (ReadClock <$> seq (ticks s) m) |}.

(** The value of the busy record that the watcher sees when [kickoff]
    subscribes it: [MyFlyer] subscribes before its write,
    [BusyFlyerDevice] after it. *)
Definition seen_on_subscribe (subscribe_first : bool) (s : State) : string :=
  if subscribe_first then busy_value s
  else if link_up s then "Busy" else busy_value s.

(** The completion status as [kickoff] leaves it: already resolved when
    the watcher saw the done sentinel on being subscribed. *)
Definition status_after_kickoff (subscribe_first : bool) (s : State)
    : DeviceStatus :=
  if str_in (seen_on_subscribe subscribe_first s) (BusyStatus_value done)
  then resolved else fresh_status.

(** The state either [kickoff] leaves behind; the two differ in the order
    of their actions. *)
Definition after_kickoff (subscribe_first : bool) (s : State) : State :=
  let r := length (heap s) in
  let w := {| installed_with := r |} in
  let run_now :=
    if str_in (seen_on_subscribe subscribe_first s) (BusyStatus_value done)
    then [Resolve r true] else [] in
  {| busy_value := if link_up s then "Busy" else busy_value s;
     link_up := link_up s; t_array := t_array s; x_array := x_array s;
     y_array := y_array s; subscribers := subscribers s ++ [w];
     name := name s;
     heap := heap s ++ [status_after_kickoff subscribe_first s; resolved];
     completion_status := Some r; t0 := clock s (ticks s);
     clock := clock s; ticks := S (ticks s);
     trace := trace s ++
       (if subscribe_first
        then [NewStatus r; Subscribe w] ++ run_now
             ++ [ReadClock (ticks s); Put "Busy"]
        else [NewStatus r; ReadClock (ticks s); Put "Busy"; Subscribe w]
             ++ run_now)
       ++ [NewStatus (S r); Resolve (S r) true] |}.

(** The document [MyFlyer.collect] builds from the samples [t], [x], [y]
    when the clock has been read [k] times before. *)
Definition MyFlyer_doc (clk : nat -> float) (start t x y : float) (k : nat) : Doc :=
  {| time := clk k;
     data := {[ "ifly_tArr" := (clk (S k) - start)%float;
                "ifly_xArr" := x; "ifly_yArr" := y ]};
     timestamps := {[ "ifly_tArr" := t; "ifly_xArr" := t; "ifly_yArr" := t ]} |}.

Fixpoint MyFlyer_docs (clk : nat -> float) (start : float)
    (tw xw yw : list float) (i m k : nat) : list Doc :=
  match m with
  | O => []
  | S m' => MyFlyer_doc clk start (tw !!! i) (xw !!! i) (yw !!! i) k
            :: MyFlyer_docs clk start tw xw yw (S i) m' (S (S k))
  end.

(** The same for [BusyFlyerDevice.collect]. *)
Definition BusyFlyerDevice_doc (nm : string) (clk : nat -> float)
    (start t x y : float) (k : nat) : Doc :=
  {| time := clk (S k);
     data := <[nm +:+ "_time" := (t - start)%float]>
               (<[nm +:+ "_signal" := y]>
                  (<[nm +:+ "_axis" := x]> (<[nm +:+ "_time" := t]> ∅)));
     timestamps := <[nm +:+ "_signal" := clk k]>
                     (<[nm +:+ "_axis" := clk k]>
                        (<[nm +:+ "_time" := clk k]> ∅)) |}.

Fixpoint BusyFlyerDevice_docs (nm : string) (clk : nat -> float) (start : float)
    (tw xw yw : list float) (i m k : nat) : list Doc :=
  match m with
  | O => []
  | S m' => BusyFlyerDevice_doc nm clk start (tw !!! i) (xw !!! i) (yw !!! i) k
            :: BusyFlyerDevice_docs nm clk start tw xw yw (S i) m' (S (S k))
  end.

(** A wall clock that never runs backwards. *)
Definition monotone (clk : nat -> float) : Prop :=
  forall i j, i <= j -> (clk i <=? clk j)%float = true.

(** ** Example states and runs *)

Definition wall_clock (n : nat) : float :=
  match n with
  | 0 => 1000 | 1 => 1000.03 | 2 => 1000.031 | 3 => 1000.032
  | 4 => 1000.033 | 5 => 1000.034 | 6 => 1000.035 | 7 => 1000.036
  | _ => 1000.04
  end%float.

Definition five : list float := [1; 2; 3; 4; 5]%float.
Definition three : list float := [7; 8; 9]%float.

(** Populated counts 5, 5 and 3: the signal array is the short one. *)
Definition counts_5_5_3 : State :=
  connected "ifly" "Done" true (waveform five) (waveform five)
    (waveform three) wall_clock.

(** Populated counts 3, 5 and 5: the time array is the short one. *)
Definition counts_3_5_5 : State :=
  connected "ifly" "Done" true (waveform three) (waveform five)
    (waveform five) wall_clock.

(** A device nobody has kicked off, all arrays holding three samples. *)
Definition idle : State :=
  connected "ifly" "Done" true (waveform three) (waveform three)
    (waveform three) wall_clock.

(** [idle] after one [kickoff] whose write has reached the record: a
    cycle is in flight, the record shows Busy and the completion status
    is not resolved. *)
Definition armed : State := snd (BusyFlyerDevice.kickoff idle).

(** The armed device at the moment its busy record shows [v]. *)
Definition armed_seeing (v : string) : State := set_busy_value v armed.

(** One full cycle on [idle], and the [kickoff] of the next one. *)
Definition completed : State :=
  snd (BusyFlyerDevice.complete (notify "Done" armed)).
Definition drained : State :=
  snd (list_of BusyFlyerDevice.collect_next 4 BusyFlyerDevice.collect completed).
Definition second_cycle : State := snd (BusyFlyerDevice.kickoff drained).

(** [MyFlyer]: [idle] after one [kickoff], and after a second [kickoff]
    made while the record still shows Busy.  The first watcher saw Done
    on being subscribed and resolved status 0 at once; the second saw
    Busy. *)
Definition kicked_off : State := snd (MyFlyer.kickoff idle).
Definition kicked_off_again : State := snd (MyFlyer.kickoff kicked_off).

(** The end-to-end run of section 8 of the specification. *)
Definition x_samples : list float := [-1.23; 0.87; 2.97]%float.
Definition y_samples : list float := [0.069; 0.274; 0.027]%float.
Definition t_samples (T0 : float) : list float :=
  [T0 + 0.018; T0 + 0.019; T0 + 0.022]%float.

(** The controller stores its samples and puts the busy record back to
    Done. *)
Definition controller_done (T0 : float) (s : State) : State :=
  notify (BusyStatus_value done)
    (set_arrays (waveform (t_samples T0)) (waveform x_samples)
       (waveform y_samples) s).

Definition no_samples : MyWaveform := waveform [].

Definition MyFlyer_cycle (clk : nat -> float)
    : result (option (list Doc)) * State :=
  let s0 := snd (MyFlyer.__init__
                   (connected "ifly" "Done" true no_samples no_samples
                      no_samples clk)) in
  let s1 := snd (MyFlyer.kickoff s0) in
  let s2 := controller_done (t0 s1) s1 in
  (MyFlyer.complete;; list_of MyFlyer.collect_next 4 MyFlyer.collect) s2.

Definition BusyFlyerDevice_cycle (clk : nat -> float)
    : result (option (list Doc)) * State :=
  let s0 := snd (BusyFlyerDevice.__init__
                   (connected "bflyer" "Done" true no_samples no_samples
                      no_samples clk)) in
  let s1 := snd (BusyFlyerDevice.kickoff s0) in
  let s2 := controller_done (t0 s1) s1 in
  (BusyFlyerDevice.complete;;
   list_of BusyFlyerDevice.collect_next 4 BusyFlyerDevice.collect) s2.

(** The events of a complete taxi and fly run, in order. *)
Definition script (a b : string) : list TaxiFlyScanDevice.Event :=
  [ TaxiFlyScanDevice.Wrote TaxiFlyScanDevice.taxi a;
    TaxiFlyScanDevice.Reached TaxiFlyScanDevice.taxi "Done";
    TaxiFlyScanDevice.Wrote TaxiFlyScanDevice.fly b;
    TaxiFlyScanDevice.Reached TaxiFlyScanDevice.fly "Done" ].

(** The run of the notebook when the scan is over. *)
Definition finished_run : TaxiFlyScanDevice.Run :=
  {| TaxiFlyScanDevice.todo := [];
     TaxiFlyScanDevice.taxi_pv :=
       {| TaxiFlyScanDevice.value := "Done"; TaxiFlyScanDevice.moving := false |};
     TaxiFlyScanDevice.fly_pv :=
       {| TaxiFlyScanDevice.value := "Done"; TaxiFlyScanDevice.moving := false |};
     TaxiFlyScanDevice.groups :=
       [(1, TaxiFlyScanDevice.fly); (0, TaxiFlyScanDevice.taxi)];
     TaxiFlyScanDevice.history := script "Busy" "Busy" |}.

(** ** [describe_collect] *)

(** The process variable names of the notebooks. *)
Definition BUSY_PV : string := "prj:mybusy".
Definition TIME_WAVE_PV : string := "prj:t_array".
Definition X_WAVE_PV : string := "prj:x_array".
Definition Y_WAVE_PV : string := "prj:y_array".

(** One entry of a schema: [dict(source=..., dtype=..., shape=...)]. *)
Record DataKey := {
  source : string;
  dtype : string;
  shape : list nat
}.

(** [dict(source = pvname, dtype = "number", shape = (1,))] *)
Definition number_key (pvname : string) : DataKey :=
  {| source := pvname; dtype := "number"; shape := [1] |}.

(** [MyFlyer.describe_collect]: one stream, named after the device, with
    the three keys written out.  The device is made with the empty
    prefix, so the [pvname] of each [wave] is the constant itself. *)
Definition MyFlyer_describe_collect (s : State)
    : gmap string (gmap string DataKey) :=
  {[ name s := {[ "ifly_xArr" := number_key X_WAVE_PV;
                  "ifly_yArr" := number_key Y_WAVE_PV;
                  "ifly_tArr" := number_key TIME_WAVE_PV ]} ]}.

(** [(item.name, item.wave.pvname)] for the items of [self.waves]. *)
Definition BusyFlyerDevice_wave_pvnames (s : State) : list (string * string) :=
  [ (name s +:+ "_time", TIME_WAVE_PV);
    (name s +:+ "_axis", X_WAVE_PV);
    (name s +:+ "_signal", Y_WAVE_PV) ].

(** [BusyFlyerDevice.describe_collect]: the schema is filled by a loop
    over [self.waves]. *)
Definition BusyFlyerDevice_describe_collect (s : State)
    : gmap string (gmap string DataKey) :=
  {[ name s :=
       foldl (fun schema item => <[fst item := number_key (snd item)]> schema)
         ∅ (BusyFlyerDevice_wave_pvnames s) ]}.

(** ** Sequences of calls *)

(** One call on the device or one notification from the busy record. *)
Inductive call : State -> State -> Prop :=
| call_MyFlyer_init s : call s (snd (MyFlyer.__init__ s))
| call_MyFlyer_kickoff s : call s (snd (MyFlyer.kickoff s))
| call_MyFlyer_complete s : call s (snd (MyFlyer.complete s))
| call_MyFlyer_next g s : call s (snd (MyFlyer.collect_next g s))
| call_BusyFlyerDevice_init s : call s (snd (BusyFlyerDevice.__init__ s))
| call_BusyFlyerDevice_kickoff s : call s (snd (BusyFlyerDevice.kickoff s))
| call_BusyFlyerDevice_complete s : call s (snd (BusyFlyerDevice.complete s))
| call_BusyFlyerDevice_next g s : call s (snd (BusyFlyerDevice.collect_next g s))
| call_notify v s : call s (notify v s).

(** The completion status, when there is one, is an object of the store. *)
Definition status_in_store (s : State) : Prop :=
  forall r, completion_status s = Some r -> r < length (heap s).

(** What a computation leaves alone: [f] has the same value afterwards,
    whether the computation returns or raises. *)
Definition preserves {A B} (f : State -> B) (m : M A) : Prop :=
  forall s, f (snd (m s)) = f s.

(** Everything of a state but the clock count and the trace. *)
Definition beside_clock (s : State) :=
  (busy_value s, link_up s, t_array s, x_array s, y_array s, subscribers s,
   name s, heap s, completion_status s, t0 s).

(** Everything of a state but the completion status, the clock count and
    the trace. *)
Definition beside_cycle (s : State) :=
  (busy_value s, link_up s, t_array s, x_array s, y_array s, subscribers s,
   name s, heap s, t0 s).

(** Nothing is unsubscribed, no status object is dropped, and a resolved
    status object stays as it is. *)
Definition grows (s s' : State) : Prop :=
  subscribers s `prefix_of` subscribers s' /\
  length (heap s) <= length (heap s') /\
  forall r d, heap s !! r = Some d -> st_done d = true -> heap s' !! r = Some d.

Section TaxiFlyExamples.
Import TaxiFlyScanDevice.

(** The stages of a run that moves taxi only. *)
Definition taxi_stages (a : string)
    : list (list Msg * bool * bool * list (nat * Signal) * list Event) :=
  [ (mv taxi a 0, false, false, [], []);
    ([wait 0], true, false, [(0, taxi)], [Wrote taxi a]);
    ([wait 0], false, false, [(0, taxi)], [Wrote taxi a; Reached taxi "Done"]);
    ([], false, false, [(0, taxi)], [Wrote taxi a; Reached taxi "Done"]) ].

(** A fly record with a single state string. *)
Definition one_state_fly : Device :=
  {| taxi_enum_strs := ["Done"; "Busy"]; fly_enum_strs := ["Done"] |}.

(** The run on [one_state_fly] when the messages of the plan are used up. *)
Definition taxi_only_run : Run :=
  {| todo := [];
     taxi_pv := {| value := "Done"; moving := false |};
     fly_pv := {| value := "Done"; moving := false |};
     groups := [(0, taxi)];
     history := [Wrote taxi "Busy"; Reached taxi "Done"] |}.

End TaxiFlyExamples.

(** * Proofs *)

(** ** Store and trace bookkeeping *)

Lemma lookup_snoc {A} (l : list A) (x : A) : (l ++ [x]) !! length l = Some x.
Proof. apply list_lookup_middle. reflexivity. Qed.

Lemma lookup_snoc2 {A} (l : list A) (x y : A) :
  (l ++ [x; y]) !! S (length l) = Some y.
Proof.
  change [x; y] with ([x] ++ [y]). rewrite app_assoc.
  apply list_lookup_middle. rewrite length_app; cbn; lia.
Qed.

Lemma insert_snoc {A} (l : list A) (x y : A) :
  <[length l := y]> (l ++ [x]) = l ++ [y].
Proof.
  replace (length l) with (length l + 0)%nat by lia.
  rewrite insert_app_r. reflexivity.
Qed.

(** Evaluate the monadic code, leaving the list operations on the store
    and the trace as they are. *)
Ltac run :=
  lazy -[lookup insert list_lookup list_insert lookup_total list_lookup_total
         app length seq fmap list_fmap Nat.add Nat.mul].

Ltac run_store :=
  lazy -[lookup insert list_lookup list_insert app length str_in].

Ltac run_kickoff :=
  run_store;
  repeat (first [rewrite lookup_snoc | rewrite insert_snoc]; run_store);
  rewrite ?length_app, <- ?app_assoc, ?Nat.add_1_r; reflexivity.

Lemma MyFlyer_kickoff_eq (s : State) :
  MyFlyer.kickoff s = (Ok (S (length (heap s))), after_kickoff true s).
Proof.
  destruct s as [bv up ta xa ya subs nm h cs t0 clk tk tr].
  destruct up; run_store; destruct (str_in bv "Done"); run_kickoff.
Qed.

Lemma BusyFlyerDevice_kickoff_eq (s : State) :
  BusyFlyerDevice.kickoff s = (Ok (S (length (heap s))), after_kickoff false s).
Proof.
  destruct s as [bv up ta xa ya subs nm h cs t0 clk tk tr].
  destruct up; run_store.
  - change (str_in "Busy" "Done") with false. run_kickoff.
  - destruct (str_in bv "Done"); run_kickoff.
Qed.

(** ** What [collect] yields while every index is in range *)

Lemma after_reads_compose a b s :
  after_reads a (after_reads b s) = after_reads (b + a) s.
Proof.
  unfold after_reads; cbn. f_equal; [lia|].
  rewrite seq_app, fmap_app, app_assoc. reflexivity.
Qed.

Lemma after_reads_0 s : after_reads 0 s = s.
Proof.
  destruct s; unfold after_reads; cbn. rewrite app_nil_r, Nat.add_0_r. reflexivity.
Qed.

Lemma in_range (l : list float) i : i < length l -> l !! i = Some (l !!! i).
Proof. intros H. apply list_lookup_lookup_total_lt. exact H. Qed.

Lemma MyFlyer_body_ok s i :
  i < length (wave (t_array s)) ->
  i < length (wave (x_array s)) ->
  i < length (wave (y_array s)) ->
  MyFlyer.collect_body i s =
    (Ok (MyFlyer_doc (clock s) (t0 s) (wave (t_array s) !!! i)
           (wave (x_array s) !!! i) (wave (y_array s) !!! i) (ticks s)),
     after_reads 2 s).
Proof.
  intros Ht Hx Hy.
  unfold MyFlyer.collect_body, mbind, M_bind, bind, gets, index. cbn.
  rewrite (in_range _ _ Ht); cbn.
  rewrite (in_range _ _ Hx); cbn.
  rewrite (in_range _ _ Hy); cbn.
  unfold after_reads, log, set_ticks. cbn. rewrite <- app_assoc, !Nat.add_succ_r, Nat.add_0_r.
  reflexivity.
Qed.

Lemma MyFlyer_loop_ok m : forall i s fuel,
  i + m <= length (wave (t_array s)) ->
  i + m <= length (wave (x_array s)) ->
  i + m <= length (wave (y_array s)) ->
  m < fuel ->
  list_of MyFlyer.collect_next fuel (Suspended (i + m) i) s =
    (Ok (Some (MyFlyer_docs (clock s) (t0 s) (wave (t_array s))
                 (wave (x_array s)) (wave (y_array s)) i m (ticks s))),
     after_reads (2 * m) s).
Proof.
  induction m as [|m IH]; intros i s fuel Ht Hx Hy Hf;
    (destruct fuel as [|fuel]; [lia|]).
  - cbn [list_of MyFlyer.collect_next]. unfold mbind, M_bind, bind, MyFlyer.collect_loop.
    rewrite Nat.add_0_r, Nat.ltb_irrefl. cbn. rewrite after_reads_0. reflexivity.
  - cbn [list_of MyFlyer.collect_next]. unfold mbind, M_bind, bind, MyFlyer.collect_loop.
    replace (i <? i + S m)%nat with true by (symmetry; apply Nat.ltb_lt; lia).
    unfold mbind, M_bind, bind.
    rewrite MyFlyer_body_ok by lia.
    cbn [mret M_ret ret].
    replace (i + S m) with (S i + m) by lia.
    rewrite IH by (cbn; lia).
    cbn [fmap option_fmap option_map MyFlyer_docs].
    rewrite after_reads_compose.
    replace (2 + 2 * m) with (2 * S m) by lia.
    cbn [after_reads ticks clock t0 t_array x_array y_array wave].
    replace (ticks s + 2) with (S (S (ticks s))) by lia.
    reflexivity.
Qed.

Lemma MyFlyer_start fuel s :
  list_of MyFlyer.collect_next (S fuel) MyFlyer.collect s =
  list_of MyFlyer.collect_next (S fuel)
    (Suspended (length (wave (t_array s))) 0) (set_completion_status None s).
Proof. reflexivity. Qed.

Lemma time_key_ne_axis nm : nm +:+ "_time" <> nm +:+ "_axis".
Proof. intros H. apply (inj (String.app nm)) in H. discriminate. Qed.

Lemma time_key_ne_signal nm : nm +:+ "_time" <> nm +:+ "_signal".
Proof. intros H. apply (inj (String.app nm)) in H. discriminate. Qed.

Lemma axis_key_ne_signal nm : nm +:+ "_axis" <> nm +:+ "_signal".
Proof. intros H. apply (inj (String.app nm)) in H. discriminate. Qed.

Lemma BusyFlyerDevice_body_ok s i :
  i < length (wave (t_array s)) ->
  i < length (wave (x_array s)) ->
  i < length (wave (y_array s)) ->
  BusyFlyerDevice.collect_body i s =
    (Ok (BusyFlyerDevice_doc (name s) (clock s) (t0 s) (wave (t_array s) !!! i)
           (wave (x_array s) !!! i) (wave (y_array s) !!! i) (ticks s)),
     after_reads 2 s).
Proof.
  intros Ht Hx Hy.
  unfold BusyFlyerDevice.collect_body, mbind, M_bind, bind, gets, index. cbn.
  unfold mbind, M_bind, bind, index.
  rewrite (in_range _ _ Ht); cbn.
  rewrite (in_range _ _ Hx); cbn.
  rewrite (in_range _ _ Hy); cbn.
  rewrite lookup_insert_ne by (apply not_eq_sym, time_key_ne_signal).
  rewrite lookup_insert_ne by (apply not_eq_sym, time_key_ne_axis).
  rewrite lookup_insert_eq. cbn.
  unfold after_reads, log, set_ticks, BusyFlyerDevice_doc. cbn.
  rewrite <- app_assoc, !Nat.add_succ_r, Nat.add_0_r.
  reflexivity.
Qed.

Lemma BusyFlyerDevice_loop_ok m : forall i s fuel,
  i + m <= length (wave (t_array s)) ->
  i + m <= length (wave (x_array s)) ->
  i + m <= length (wave (y_array s)) ->
  m < fuel ->
  list_of BusyFlyerDevice.collect_next fuel (Suspended (i + m) i) s =
    (Ok (Some (BusyFlyerDevice_docs (name s) (clock s) (t0 s) (wave (t_array s))
                 (wave (x_array s)) (wave (y_array s)) i m (ticks s))),
     after_reads (2 * m) s).
Proof.
  induction m as [|m IH]; intros i s fuel Ht Hx Hy Hf;
    (destruct fuel as [|fuel]; [lia|]).
  - cbn [list_of BusyFlyerDevice.collect_next].
    unfold mbind, M_bind, bind, BusyFlyerDevice.collect_loop.
    rewrite Nat.add_0_r, Nat.ltb_irrefl. cbn. rewrite after_reads_0. reflexivity.
  - cbn [list_of BusyFlyerDevice.collect_next].
    unfold mbind, M_bind, bind, BusyFlyerDevice.collect_loop.
    replace (i <? i + S m)%nat with true by (symmetry; apply Nat.ltb_lt; lia).
    unfold mbind, M_bind, bind.
    rewrite BusyFlyerDevice_body_ok by lia.
    cbn [mret M_ret ret].
    replace (i + S m) with (S i + m) by lia.
    rewrite IH by (cbn; lia).
    cbn [fmap option_fmap option_map BusyFlyerDevice_docs].
    rewrite after_reads_compose.
    replace (2 + 2 * m) with (2 * S m) by lia.
    cbn [after_reads ticks clock t0 t_array x_array y_array wave name].
    replace (ticks s + 2) with (S (S (ticks s))) by lia.
    reflexivity.
Qed.

Lemma BusyFlyerDevice_start fuel s :
  list_of BusyFlyerDevice.collect_next (S fuel) BusyFlyerDevice.collect s =
  list_of BusyFlyerDevice.collect_next (S fuel)
    (Suspended (Z.to_nat (number_read (t_array s))) 0)
    (set_completion_status None s).
Proof. reflexivity. Qed.

Lemma MyFlyer_docs_length clk st tw xw yw m : forall i k,
  length (MyFlyer_docs clk st tw xw yw i m k) = m.
Proof. induction m as [|m IH]; intros i k; cbn; [|rewrite IH]; reflexivity. Qed.

Lemma MyFlyer_docs_lookup clk st tw xw yw m : forall i k j d,
  MyFlyer_docs clk st tw xw yw i m k !! j = Some d ->
  j < m /\
  d = MyFlyer_doc clk st (tw !!! (i + j)) (xw !!! (i + j)) (yw !!! (i + j))
        (k + 2 * j).
Proof.
  induction m as [|m IH]; intros i k j d H; [discriminate|].
  destruct j as [|j]; cbn in H.
  - injection H as <-. split; [lia|]. rewrite !Nat.add_0_r. reflexivity.
  - apply IH in H as [Hj ->]. split; [lia|].
    replace (S i + j) with (i + S j) by lia.
    replace (S (S k) + 2 * j) with (k + 2 * S j) by lia. reflexivity.
Qed.

Lemma BusyFlyerDevice_docs_length nm clk st tw xw yw m : forall i k,
  length (BusyFlyerDevice_docs nm clk st tw xw yw i m k) = m.
Proof. induction m as [|m IH]; intros i k; cbn; [|rewrite IH]; reflexivity. Qed.

Lemma BusyFlyerDevice_docs_lookup nm clk st tw xw yw m : forall i k j d,
  BusyFlyerDevice_docs nm clk st tw xw yw i m k !! j = Some d ->
  j < m /\
  d = BusyFlyerDevice_doc nm clk st (tw !!! (i + j)) (xw !!! (i + j))
        (yw !!! (i + j)) (k + 2 * j).
Proof.
  induction m as [|m IH]; intros i k j d H; [discriminate|].
  destruct j as [|j]; cbn in H.
  - injection H as <-. split; [lia|]. rewrite !Nat.add_0_r. reflexivity.
  - apply IH in H as [Hj ->]. split; [lia|].
    replace (S i + j) with (i + S j) by lia.
    replace (S (S k) + 2 * j) with (k + 2 * S j) by lia. reflexivity.
Qed.

Lemma MyFlyer_collect_ok s fuel :
  length (wave (t_array s)) <= length (wave (x_array s)) ->
  length (wave (t_array s)) <= length (wave (y_array s)) ->
  length (wave (t_array s)) < fuel ->
  list_of MyFlyer.collect_next fuel MyFlyer.collect s =
    (Ok (Some (MyFlyer_docs (clock s) (t0 s) (wave (t_array s))
                 (wave (x_array s)) (wave (y_array s)) 0
                 (length (wave (t_array s))) (ticks s))),
     after_reads (2 * length (wave (t_array s))) (set_completion_status None s)).
Proof.
  intros Hx Hy Hf. destruct fuel as [|fuel]; [lia|].
  rewrite MyFlyer_start.
  apply (MyFlyer_loop_ok (length (wave (t_array s))) 0
           (set_completion_status None s) (S fuel)); cbn; lia.
Qed.

Lemma BusyFlyerDevice_collect_ok s fuel :
  number_read (t_array s) = Z.of_nat (length (wave (t_array s))) ->
  length (wave (t_array s)) <= length (wave (x_array s)) ->
  length (wave (t_array s)) <= length (wave (y_array s)) ->
  length (wave (t_array s)) < fuel ->
  list_of BusyFlyerDevice.collect_next fuel BusyFlyerDevice.collect s =
    (Ok (Some (BusyFlyerDevice_docs (name s) (clock s) (t0 s) (wave (t_array s))
                 (wave (x_array s)) (wave (y_array s)) 0
                 (length (wave (t_array s))) (ticks s))),
     after_reads (2 * length (wave (t_array s))) (set_completion_status None s)).
Proof.
  intros Hn Hx Hy Hf. destruct fuel as [|fuel]; [lia|].
  rewrite BusyFlyerDevice_start, Hn, Nat2Z.id.
  apply (BusyFlyerDevice_loop_ok (length (wave (t_array s))) 0
           (set_completion_status None s) (S fuel)); cbn; lia.
Qed.

Ltac names_equal :=
  apply set_eq; intros ?;
  rewrite ?elem_of_union, ?elem_of_singleton, ?elem_of_empty; tauto.

Lemma MyFlyer_doc_names clk st t x y k :
  dom (data (MyFlyer_doc clk st t x y k))
    = ({[ "ifly_tArr"; "ifly_xArr"; "ifly_yArr" ]} : gset string) /\
  dom (timestamps (MyFlyer_doc clk st t x y k))
    = ({[ "ifly_tArr"; "ifly_xArr"; "ifly_yArr" ]} : gset string).
Proof.
  cbn [MyFlyer_doc data timestamps].
  rewrite !dom_insert_L, !dom_singleton_L. split; names_equal.
Qed.

Lemma BusyFlyerDevice_doc_names nm clk st t x y k :
  dom (data (BusyFlyerDevice_doc nm clk st t x y k))
    = ({[ nm +:+ "_time"; nm +:+ "_axis"; nm +:+ "_signal" ]} : gset string) /\
  dom (timestamps (BusyFlyerDevice_doc nm clk st t x y k))
    = ({[ nm +:+ "_time"; nm +:+ "_axis"; nm +:+ "_signal" ]} : gset string).
Proof.
  cbn [BusyFlyerDevice_doc data timestamps].
  rewrite !dom_insert_L, !dom_empty_L. split; names_equal.
Qed.

Lemma BusyFlyerDevice_doc_values nm clk st t x y k :
  let d := BusyFlyerDevice_doc nm clk st t x y k in
  data d !! (nm +:+ "_time") = Some (t - st)%float /\
  data d !! (nm +:+ "_axis") = Some x /\
  data d !! (nm +:+ "_signal") = Some y.
Proof.
  cbn [BusyFlyerDevice_doc data].
  pose proof (time_key_ne_axis nm). pose proof (time_key_ne_signal nm).
  pose proof (axis_key_ne_signal nm).
  split; [apply lookup_insert_eq|].
  split.
  - rewrite !lookup_insert_ne by congruence. apply lookup_insert_eq.
  - rewrite lookup_insert_ne by congruence. apply lookup_insert_eq.
Qed.

Lemma MyFlyer_doc_values clk st t x y k :
  let d := MyFlyer_doc clk st t x y k in
  data d !! "ifly_tArr" = Some (clk (S k) - st)%float /\
  data d !! "ifly_xArr" = Some x /\
  data d !! "ifly_yArr" = Some y /\
  timestamps d !! "ifly_tArr" = Some t /\
  timestamps d !! "ifly_xArr" = Some t /\
  timestamps d !! "ifly_yArr" = Some t.
Proof. vm_compute. repeat split. Qed.

(** ** The watcher callback *)

Lemma cb_eq (w : Callback) (s : State) :
  cb w s =
    if str_in (busy_value s) (BusyStatus_value done) then
      match completion_status s with
      | Some r => _finished r true s
      | None => (Raise AttributeError, s)
      end
    else (Ok tt, s).
Proof.
  unfold cb, mbind, M_bind, bind, gets.
  destruct (str_in (busy_value s) (BusyStatus_value done)); [|reflexivity].
  destruct (completion_status s); reflexivity.
Qed.

Lemma cb_on_Done (w : Callback) (s : State) (r : nat) (d : DeviceStatus) :
  completion_status s = Some r ->
  heap s !! r = Some d ->
  str_in (busy_value s) (BusyStatus_value done) = true ->
  let s' := snd (cb w s) in
  completion_status s' = Some r /\
  busy_value s' = busy_value s /\
  subscribers s' = subscribers s /\
  length (heap s') = length (heap s) /\
  heap s' !! r = Some (if st_done d then d else resolved) /\
  (forall r', r' <> r -> heap s' !! r' = heap s !! r').
Proof.
  intros Hc Hr Hv. cbn zeta. rewrite cb_eq, Hv, Hc. unfold _finished. rewrite Hr.
  destruct (st_done d) eqn:Ed; cbn [snd].
  - repeat split; try reflexivity; assumption.
  - cbn [log set_heap completion_status busy_value subscribers heap].
    split; [exact Hc|]. split; [reflexivity|]. split; [reflexivity|].
    split; [apply length_insert|].
    split; [apply list_lookup_insert_eq; eapply lookup_lt_Some; exact Hr|].
    intros r' Hne. apply list_lookup_insert_ne. congruence.
Qed.

(** ** The example clock *)

Lemma wall_clock_monotone : monotone wall_clock.
Proof.
  intros i j H.
  do 8 (destruct i as [|i];
        [do 8 (destruct j as [|j]; [first [reflexivity | lia]|]); reflexivity|]).
  do 8 (destruct j as [|j]; [lia|]). reflexivity.
Qed.

(** ** The taxi and fly run *)

Section TaxiFlyRun.
Import TaxiFlyScanDevice.

Ltac in_stages :=
  unfold stages, mv; rewrite !elem_of_cons; cbn;
  repeat first [ left; reflexivity | right ].

Lemma step_keeps_stage a b r r' :
  view r ∈ stages a b -> step r r' -> view r' ∈ stages a b.
Proof.
  intros Hin Hstep.
  destruct r as [td [tv tm] [fv fm] gs hs].
  unfold stages, view, mv in Hin; cbn in Hin.
  rewrite !elem_of_cons, elem_of_nil in Hin.
  destruct Hin as [Hin|[Hin|[Hin|[Hin|[Hin|[Hin|[Hin|[]]]]]]]];
    injection Hin as -> -> -> -> ->;
    inversion Hstep as [? o v g rest Htd | ? g rest Htd Hgrp
                       | ? m o rest Htd Hm | ? o Hmov];
    subst; cbn in *; simplify_eq;
    try (destruct Hm as [?|[?|[?|?]]]; discriminate);
    try (destruct o; cbn in *; try discriminate; in_stages);
    try in_stages.
  - specialize (Hgrp taxi). cbn in Hgrp.
    assert (true = false) by (apply Hgrp; left). discriminate.
  - specialize (Hgrp fly). cbn in Hgrp.
    assert (true = false) by (apply Hgrp; left). discriminate.
Qed.

Lemma run_stays_in_stages a b r r' :
  view r ∈ stages a b -> rtc step r r' -> view r' ∈ stages a b.
Proof.
  intros Hin Hrun. induction Hrun as [|r1 r2 r3 H12 _ IH]; [exact Hin|].
  apply IH. eapply step_keeps_stage; eassumption.
Qed.

Lemma stage_history a b v :
  v ∈ stages a b -> snd v `prefix_of` script a b.
Proof.
  unfold stages, script. rewrite !elem_of_cons, elem_of_nil.
  intros [H|[H|[H|[H|[H|[H|[H|[]]]]]]]]; subst v; cbn.
  - apply prefix_nil.
  - exists [Reached taxi "Done"; Wrote fly b; Reached fly "Done"]. reflexivity.
  - exists [Wrote fly b; Reached fly "Done"]. reflexivity.
  - exists [Wrote fly b; Reached fly "Done"]. reflexivity.
  - exists [Reached fly "Done"]. reflexivity.
  - exists []. reflexivity.
  - exists []. reflexivity.
Qed.

Lemma finished_run_reachable :
  rtc step (RE (fst (plan busy_records)) "Done" "Done") finished_run.
Proof.
  unfold RE, finished_run, script. cbn.
  eapply rtc_l.
  { apply (step_set _ taxi "Busy" 0 [wait 0; set fly "Busy" 1; wait 1]).
    reflexivity. }
  cbn. eapply rtc_l; [apply (step_remote _ taxi); reflexivity|].
  cbn. eapply rtc_l.
  { apply (step_wait _ 0 [set fly "Busy" 1; wait 1]); [reflexivity|].
    intros o Ho. cbn in Ho. rewrite !elem_of_cons, elem_of_nil in Ho.
    destruct Ho as [Ho|[]]; injection Ho as ->; reflexivity. }
  cbn. eapply rtc_l; [apply (step_set _ fly "Busy" 1 [wait 1]); reflexivity|].
  cbn. eapply rtc_l; [apply (step_remote _ fly); reflexivity|].
  cbn. eapply rtc_l.
  { apply (step_wait _ 1 []); [reflexivity|].
    intros o Ho. cbn in Ho. rewrite !elem_of_cons, elem_of_nil in Ho.
    destruct Ho as [Ho|[Ho|[]]]; [|discriminate Ho].
    injection Ho as ->. reflexivity. }
  cbn. apply rtc_refl.
Qed.

End TaxiFlyRun.

(** * The claims *)

(** C1 (as amended).  [collect] yields one document per index below the
    populated count of the time array alone.  Whenever the time array is
    not longer than the other two arrays, that count is the minimum of
    the three, [list(collect())] returns (no index outside an array is
    read), and document [i] holds all three channel names, in [data] and
    in [timestamps], with the samples of index [i]. *)
Theorem C1_collect_one_record_per_time_sample (s : State) (fuel : nat) :
  let nt := length (wave (t_array s)) in
  let nx := length (wave (x_array s)) in
  let ny := length (wave (y_array s)) in
  number_read (t_array s) = Z.of_nat nt ->
  nt <= nx -> nt <= ny -> nt < fuel ->
  (exists docs s',
      list_of MyFlyer.collect_next fuel MyFlyer.collect s = (Ok (Some docs), s') /\
      length docs = nt `min` (nx `min` ny) /\
      forall i d, docs !! i = Some d ->
        dom (data d) = ({[ "ifly_tArr"; "ifly_xArr"; "ifly_yArr" ]} : gset string) /\
        dom (timestamps d) = ({[ "ifly_tArr"; "ifly_xArr"; "ifly_yArr" ]} : gset string) /\
        data d !! "ifly_xArr" = wave (x_array s) !! i /\
        data d !! "ifly_yArr" = wave (y_array s) !! i /\
        timestamps d !! "ifly_tArr" = wave (t_array s) !! i) /\
  (exists docs s',
      list_of BusyFlyerDevice.collect_next fuel BusyFlyerDevice.collect s
        = (Ok (Some docs), s') /\
      length docs = nt `min` (nx `min` ny) /\
      forall i d, docs !! i = Some d ->
        dom (data d) = ({[ name s +:+ "_time"; name s +:+ "_axis";
                           name s +:+ "_signal" ]} : gset string) /\
        dom (timestamps d) = ({[ name s +:+ "_time"; name s +:+ "_axis";
                                 name s +:+ "_signal" ]} : gset string) /\
        data d !! (name s +:+ "_axis") = wave (x_array s) !! i /\
        data d !! (name s +:+ "_signal") = wave (y_array s) !! i /\
        data d !! (name s +:+ "_time")
          = (fun t => (t - t0 s)%float) <$> wave (t_array s) !! i).
Proof.
  cbn zeta. intros Hn Hx Hy Hf. split; eexists _, _.
  - split; [apply MyFlyer_collect_ok; assumption|].
    split; [rewrite MyFlyer_docs_length; lia|].
    intros i d Hd. apply MyFlyer_docs_lookup in Hd as [Hi ->].
    destruct (MyFlyer_doc_names (clock s) (t0 s) (wave (t_array s) !!! (0 + i))
                (wave (x_array s) !!! (0 + i)) (wave (y_array s) !!! (0 + i))
                (ticks s + 2 * i)) as [-> ->].
    destruct (MyFlyer_doc_values (clock s) (t0 s) (wave (t_array s) !!! (0 + i))
                (wave (x_array s) !!! (0 + i)) (wave (y_array s) !!! (0 + i))
                (ticks s + 2 * i)) as (_ & -> & -> & -> & _).
    cbn [Nat.add]. rewrite !in_range by lia. repeat split; reflexivity.
  - split; [apply BusyFlyerDevice_collect_ok; assumption|].
    split; [rewrite BusyFlyerDevice_docs_length; lia|].
    intros i d Hd. apply BusyFlyerDevice_docs_lookup in Hd as [Hi ->].
    destruct (BusyFlyerDevice_doc_names (name s) (clock s) (t0 s)
                (wave (t_array s) !!! (0 + i))
                (wave (x_array s) !!! (0 + i)) (wave (y_array s) !!! (0 + i))
                (ticks s + 2 * i)) as [-> ->].
    destruct (BusyFlyerDevice_doc_values (name s) (clock s) (t0 s)
                (wave (t_array s) !!! (0 + i))
                (wave (x_array s) !!! (0 + i)) (wave (y_array s) !!! (0 + i))
                (ticks s + 2 * i)) as (-> & -> & ->).
    cbn [Nat.add]. rewrite !in_range by lia. repeat split; reflexivity.
Qed.

(** The hypotheses of C1 hold with populated counts 3, 5 and 5. *)
Lemma C1_witness_time_array_shortest :
  exists docs s',
    list_of MyFlyer.collect_next 4 MyFlyer.collect counts_3_5_5
      = (Ok (Some docs), s') /\
    length docs = 3.
Proof.
  destruct (C1_collect_one_record_per_time_sample counts_3_5_5 4)
    as [(docs & s' & H & Hl & _) _];
    [reflexivity | cbn; lia | cbn; lia | cbn; lia |].
  exists docs, s'. split; [exact H | exact Hl].
Defined.

(** C1, as stated, fails: with populated counts 5, 5 and 3 (time, axis,
    signal) both generators yield three documents and then raise
    [IndexError] on reading index 3 of the short array, instead of
    stopping at the minimum count. *)
Lemma C1_counterexample_signal_array_shorter :
  length (wave (t_array counts_5_5_3)) = 5 /\
  length (wave (x_array counts_5_5_3)) = 5 /\
  length (wave (y_array counts_5_5_3)) = 3 /\
  fst (list_of MyFlyer.collect_next 3 MyFlyer.collect counts_5_5_3) = Ok None /\
  fst (list_of MyFlyer.collect_next 6 MyFlyer.collect counts_5_5_3)
    = Raise IndexError /\
  fst (list_of BusyFlyerDevice.collect_next 3 BusyFlyerDevice.collect counts_5_5_3)
    = Ok None /\
  fst (list_of BusyFlyerDevice.collect_next 6 BusyFlyerDevice.collect counts_5_5_3)
    = Raise IndexError.
Proof. vm_compute. repeat split. Qed.

(** C2 (as amended).  [kickoff] has no guard: in every state, a cycle in
    flight included, it returns normally, makes a newly created status
    the current completion status, and subscribes one more watcher; the
    status objects that existed before are left as they were.  The
    watcher runs once on being subscribed, so the new status is already
    resolved on return when the value the watcher sees at that moment
    passes its test for the done sentinel, and unresolved otherwise:
    [MyFlyer] subscribes before its write and the watcher sees the value
    the record had before the call; [BusyFlyerDevice] subscribes after
    its write and the watcher sees Busy, or the old value when the write
    was lost. *)
Theorem C2_kickoff_replaces_cycle_in_flight (s : State) :
  let r := length (heap s) in
  let w := {| installed_with := r |} in
  (exists k s',
      MyFlyer.kickoff s = (Ok k, s') /\
      completion_status s' = Some r /\
      heap s' !! r =
        Some (if str_in (busy_value s) (BusyStatus_value done)
              then resolved else fresh_status) /\
      subscribers s' = subscribers s ++ [w] /\
      take r (heap s') = heap s) /\
  (exists k s',
      BusyFlyerDevice.kickoff s = (Ok k, s') /\
      completion_status s' = Some r /\
      heap s' !! r =
        Some (if link_up s then fresh_status
              else if str_in (busy_value s) (BusyStatus_value done)
                   then resolved else fresh_status) /\
      subscribers s' = subscribers s ++ [w] /\
      take r (heap s') = heap s).
Proof.
  cbn zeta.
  split; eexists _, _.
  - split; [apply MyFlyer_kickoff_eq|].
    cbn [after_kickoff completion_status heap subscribers].
    split; [reflexivity|].
    split; [rewrite (list_lookup_middle _ _ _ (length (heap s)) eq_refl);
            reflexivity|].
    split; [reflexivity|apply take_app_length].
  - split; [apply BusyFlyerDevice_kickoff_eq|].
    cbn [after_kickoff completion_status heap subscribers].
    split; [reflexivity|].
    split; [rewrite (list_lookup_middle _ _ _ (length (heap s)) eq_refl);
            unfold status_after_kickoff, seen_on_subscribe;
            destruct (link_up s); reflexivity|].
    split; [reflexivity|apply take_app_length].
Qed.

(** C2, as stated, fails: a second [kickoff] on a device with a cycle in
    flight does not raise, and the completion status of that cycle
    (address 0) is replaced by a new one (address 2); the status at
    address 0 itself stays as it was. *)
Lemma C2_counterexample_second_kickoff :
  completion_status kicked_off = Some 0 /\
  ~ fails (MyFlyer.kickoff kicked_off) /\
  fst (MyFlyer.kickoff kicked_off) = Ok 3 /\
  completion_status kicked_off_again = Some 2 /\
  heap kicked_off_again !! 0 = heap kicked_off !! 0 /\
  completion_status armed = Some 0 /\
  heap armed !! 0 = Some fresh_status /\
  ~ fails (BusyFlyerDevice.kickoff armed) /\
  fst (BusyFlyerDevice.kickoff armed) = Ok 3 /\
  completion_status (snd (BusyFlyerDevice.kickoff armed)) = Some 2 /\
  heap (snd (BusyFlyerDevice.kickoff armed)) !! 0 = Some fresh_status.
Proof.
  assert (Hm : fst (MyFlyer.kickoff kicked_off) = Ok 3)
    by (vm_compute; reflexivity).
  assert (Hb : fst (BusyFlyerDevice.kickoff armed) = Ok 3)
    by (vm_compute; reflexivity).
  split; [vm_compute; reflexivity|].
  split; [intros [e He]; rewrite Hm in He; discriminate He|].
  split; [exact Hm|].
  split; [vm_compute; reflexivity|].
  split; [vm_compute; reflexivity|].
  split; [vm_compute; reflexivity|].
  split; [vm_compute; reflexivity|].
  split; [intros [e He]; rewrite Hb in He; discriminate He|].
  split; [exact Hb|].
  split; vm_compute; reflexivity.
Qed.

(** C3.  The busy signal is read as a string ([string=True]) and the
    record has the two states that [BusyStatus] lists, Busy and Done.
    Run on a cycle whose completion status is not yet resolved, the
    watcher returns normally and resolves that status, with success,
    exactly when the state it observes is the done sentinel, touching no
    other status; on the other state it changes nothing at all. *)
Theorem C3_cb_resolves_exactly_on_Done
    (s : State) (w : Callback) (b : BusyStatus) (r : nat) (d : DeviceStatus) :
  busy_value s = BusyStatus_value b ->
  completion_status s = Some r ->
  heap s !! r = Some d ->
  st_done d = false ->
  fst (cb w s) = Ok tt /\
  (heap (snd (cb w s)) !! r = Some resolved <-> b = done) /\
  (b = done ->
     trace (snd (cb w s)) = trace s ++ [Resolve r true] /\
     forall r', r' <> r -> heap (snd (cb w s)) !! r' = heap s !! r') /\
  (b <> done -> snd (cb w s) = s).
Proof.
  intros Hv Hc Hr Hd. rewrite cb_eq, Hv, Hc.
  destruct b; cbn [BusyStatus_value].
  - change (str_in "Busy" "Done") with false. cbn [fst snd].
    split; [reflexivity|]. split; [|split].
    + split; [|discriminate].
      rewrite Hr. intros H. injection H as ->. discriminate Hd.
    + discriminate.
    + reflexivity.
  - change (str_in "Done" "Done") with true.
    unfold _finished. rewrite Hr, Hd.
    cbn [fst snd log set_heap heap trace].
    split; [reflexivity|]. split; [|split].
    + split; [reflexivity|].
      intros _. apply list_lookup_insert_eq. eapply lookup_lt_Some. exact Hr.
    + intros _. split; [reflexivity|].
      intros r' Hne. apply list_lookup_insert_ne. congruence.
    + intros H. contradiction H. reflexivity.
Qed.

(** The hypotheses of C3 hold on the armed device at the moment its busy
    record returns to Done. *)
Lemma C3_witness_armed_seeing_Done :
  heap (snd (cb {| installed_with := 0 |} (armed_seeing "Done"))) !! 0
    = Some resolved.
Proof.
  apply (C3_cb_resolves_exactly_on_Done
           (armed_seeing "Done") {| installed_with := 0 |} done 0 fresh_status);
    reflexivity.
Defined.





(** C6 (as amended).  [collect] checks no state: whatever the completion
    status is, it resets it to [None] and yields the documents, and a
    second [collect] right after it does the same again. *)
Theorem C6_collect_checks_no_state (s : State) (fuel : nat) :
  let nt := length (wave (t_array s)) in
  number_read (t_array s) = Z.of_nat nt ->
  nt <= length (wave (x_array s)) ->
  nt <= length (wave (y_array s)) ->
  nt < fuel ->
  (exists docs s' docs' s'',
      list_of MyFlyer.collect_next fuel MyFlyer.collect s = (Ok (Some docs), s') /\
      completion_status s' = None /\
      list_of MyFlyer.collect_next fuel MyFlyer.collect s' = (Ok (Some docs'), s'') /\
      completion_status s'' = None /\
      length docs = nt /\ length docs' = nt) /\
  (exists docs s' docs' s'',
      list_of BusyFlyerDevice.collect_next fuel BusyFlyerDevice.collect s
        = (Ok (Some docs), s') /\
      completion_status s' = None /\
      list_of BusyFlyerDevice.collect_next fuel BusyFlyerDevice.collect s'
        = (Ok (Some docs'), s'') /\
      completion_status s'' = None /\
      length docs = nt /\ length docs' = nt).
Proof.
  cbn zeta. intros Hn Hx Hy Hf. split; eexists _, _, _, _.
  - split; [apply MyFlyer_collect_ok; assumption|].
    split; [reflexivity|].
    split; [apply MyFlyer_collect_ok; assumption|].
    split; [reflexivity|].
    rewrite !MyFlyer_docs_length. split; reflexivity.
  - split; [apply BusyFlyerDevice_collect_ok; assumption|].
    split; [reflexivity|].
    split; [apply BusyFlyerDevice_collect_ok; assumption|].
    split; [reflexivity|].
    rewrite !BusyFlyerDevice_docs_length. split; reflexivity.
Qed.

(** The hypotheses of C6 hold on a device that was never kicked off. *)
Lemma C6_witness_collect_twice_when_idle :
  exists docs s' docs' s'',
    list_of MyFlyer.collect_next 4 MyFlyer.collect idle = (Ok (Some docs), s') /\
    list_of MyFlyer.collect_next 4 MyFlyer.collect s' = (Ok (Some docs'), s'') /\
    length docs = 3 /\ length docs' = 3.
Proof.
  destruct (C6_collect_checks_no_state idle 4)
    as [(docs & s' & docs' & s'' & H1 & _ & H2 & _ & L1 & L2) _];
    [reflexivity | cbn; lia | cbn; lia | cbn; lia |].
  exists docs, s', docs', s''. repeat split; assumption.
Defined.

(** C6, as stated, fails: [collect] returns three documents on a device
    that was never kicked off, on an armed device whose status is not
    resolved, and a second time after a first [collect]. *)
Lemma C6_counterexample_collect_in_any_state :
  completion_status idle = None /\
  (exists docs, fst (list_of MyFlyer.collect_next 4 MyFlyer.collect idle)
                = Ok (Some docs) /\ length docs = 3) /\
  (exists docs, fst (list_of BusyFlyerDevice.collect_next 4
                       BusyFlyerDevice.collect idle)
                = Ok (Some docs) /\ length docs = 3) /\
  completion_status armed = Some 0 /\
  heap armed !! 0 = Some fresh_status /\
  (exists docs, fst (list_of MyFlyer.collect_next 4 MyFlyer.collect armed)
                = Ok (Some docs) /\ length docs = 3) /\
  completion_status drained = None /\
  (exists docs, fst (list_of MyFlyer.collect_next 4 MyFlyer.collect drained)
                = Ok (Some docs) /\ length docs = 3) /\
  (exists docs, fst (list_of BusyFlyerDevice.collect_next 4
                       BusyFlyerDevice.collect armed)
                = Ok (Some docs) /\ length docs = 3) /\
  (exists docs, fst (list_of BusyFlyerDevice.collect_next 4
                       BusyFlyerDevice.collect drained)
                = Ok (Some docs) /\ length docs = 3).
Proof.
  split; [reflexivity|].
  split; [eexists; split; [vm_compute; reflexivity | reflexivity]|].
  split; [eexists; split; [vm_compute; reflexivity | reflexivity]|].
  split; [vm_compute; reflexivity|].
  split; [vm_compute; reflexivity|].
  split; [eexists; split; [vm_compute; reflexivity | reflexivity]|].
  split; [vm_compute; reflexivity|].
  split; [eexists; split; [vm_compute; reflexivity | reflexivity]|].
  split; [eexists; split; [vm_compute; reflexivity | reflexivity]|].
  eexists; split; [vm_compute; reflexivity | reflexivity].
Qed.

(** C7.  With no cycle in flight, [MyFlyer.complete] raises
    [RuntimeError]; [BusyFlyerDevice.complete] has no such check and
    returns [None] normally. *)
Theorem C7_complete_when_idle (s : State) :
  completion_status s = None ->
  MyFlyer.complete s = (Raise (RuntimeError "No collection in progress"), s) /\
  BusyFlyerDevice.complete s = (Ok None, s).
Proof.
  intros H. unfold MyFlyer.complete, BusyFlyerDevice.complete, mbind, M_bind,
    bind, gets. rewrite H. split; reflexivity.
Qed.

(** The hypothesis of C7 holds on a device that was never kicked off. *)
Lemma C7_witness_idle :
  MyFlyer.complete idle = (Raise (RuntimeError "No collection in progress"), idle) /\
  BusyFlyerDevice.complete idle = (Ok None, idle).
Proof. apply (C7_complete_when_idle idle). reflexivity. Defined.

(** ** The end-to-end run

    Both devices yield three documents in index order whose axis and
    signal values are the input arrays verbatim and whose emission times
    do not decrease when the wall clock does not.  [BusyFlyerDevice]
    reports [t[i] - T0] as the time value; [MyFlyer] reports a clock
    reading minus [T0] and puts [t[i]] into [timestamps]. *)
Lemma end_to_end_cycles (clk : nat -> float) :
  monotone clk ->
  (exists docs s',
      let T0 := clk 1 in
      BusyFlyerDevice_cycle clk = (Ok (Some docs), s') /\
      length docs = 3 /\
      (fun d => data d !! "bflyer_axis") <$> docs = Some <$> x_samples /\
      (fun d => data d !! "bflyer_signal") <$> docs = Some <$> y_samples /\
      (fun d => data d !! "bflyer_time") <$> docs
        = (fun t => Some (t - T0)%float) <$> t_samples T0 /\
      (forall i j di dj, i <= j -> docs !! i = Some di -> docs !! j = Some dj ->
         (time di <=? time dj)%float = true)) /\
  (exists docs s',
      let T0 := clk 0 in
      MyFlyer_cycle clk = (Ok (Some docs), s') /\
      length docs = 3 /\
      (fun d => data d !! "ifly_xArr") <$> docs = Some <$> x_samples /\
      (fun d => data d !! "ifly_yArr") <$> docs = Some <$> y_samples /\
      (fun d => timestamps d !! "ifly_tArr") <$> docs = Some <$> t_samples T0 /\
      (fun d => data d !! "ifly_tArr") <$> docs
        = [Some (clk 2%nat - T0)%float; Some (clk 4%nat - T0)%float;
           Some (clk 6%nat - T0)%float] /\
      (forall i j di dj, i <= j -> docs !! i = Some di -> docs !! j = Some dj ->
         (time di <=? time dj)%float = true)).
Proof.
  intros Hclk. split.
  - exists (BusyFlyerDevice_docs "bflyer" clk (clk 1) (t_samples (clk 1))
              x_samples y_samples 0 3 2).
    eexists. cbn zeta. split; [vm_compute; reflexivity|].
    split; [reflexivity|].
    split; [vm_compute; reflexivity|].
    split; [vm_compute; reflexivity|].
    split; [vm_compute; reflexivity|].
    intros i j di dj Hij Hi Hj.
    apply BusyFlyerDevice_docs_lookup in Hi as [Hi ->].
    apply BusyFlyerDevice_docs_lookup in Hj as [Hj ->].
    cbn [time BusyFlyerDevice_doc]. apply Hclk. lia.
  - exists (MyFlyer_docs clk (clk 0) (t_samples (clk 0)) x_samples y_samples 0 3 1).
    eexists. cbn zeta. split; [vm_compute; reflexivity|].
    split; [reflexivity|].
    split; [vm_compute; reflexivity|].
    split; [vm_compute; reflexivity|].
    split; [vm_compute; reflexivity|].
    split; [vm_compute; reflexivity|].
    intros i j di dj Hij Hi Hj.
    apply MyFlyer_docs_lookup in Hi as [Hi ->].
    apply MyFlyer_docs_lookup in Hj as [Hj ->].
    cbn [time MyFlyer_doc]. apply Hclk. lia.
Qed.


(** The example clock does not run backwards, so the above applies to it. *)
Corollary end_to_end_wall_clock :
  exists docs s',
    BusyFlyerDevice_cycle wall_clock = (Ok (Some docs), s') /\
    length docs = 3.
Proof.
  destruct (end_to_end_cycles wall_clock wall_clock_monotone)
    as [(docs & s' & H & L & _) _].
  exists docs, s'. split; [exact H | exact L].
Qed.

(** C8.  In the end-to-end run with the example clock, the time value of
    the first document of [MyFlyer] is the clock reading taken while the
    document is built minus [T0]; it is neither [t[0]] nor [t[0] - T0].
    [BusyFlyerDevice] reports [t[0] - T0] in the same run. *)
Theorem C8_MyFlyer_time_value_is_a_clock_reading :
  (let T0 := wall_clock 0 in
   exists d docs s',
     MyFlyer_cycle wall_clock = (Ok (Some (d :: docs)), s') /\
     t_samples T0 !! 0 = Some (T0 + 0.018)%float /\
     data d !! "ifly_tArr" = Some (wall_clock 2 - T0)%float /\
     ((wall_clock 2 - T0) =? (T0 + 0.018))%float = false /\
     ((wall_clock 2 - T0) =? ((T0 + 0.018) - T0))%float = false) /\
  (let T0 := wall_clock 1 in
   exists d docs s',
     BusyFlyerDevice_cycle wall_clock = (Ok (Some (d :: docs)), s') /\
     data d !! "bflyer_time" = Some ((T0 + 0.018) - T0)%float).
Proof.
  cbn zeta. split.
  - exists (MyFlyer_doc wall_clock (wall_clock 0) (wall_clock 0 + 0.018)%float
              (-1.23)%float 0.069%float 1).
    eexists _, _.
    split; [vm_compute; reflexivity|].
    repeat split; vm_compute; reflexivity.
  - exists (BusyFlyerDevice_doc "bflyer" wall_clock (wall_clock 1)
              (wall_clock 1 + 0.018)%float (-1.23)%float 0.069%float 2).
    eexists _, _.
    split; vm_compute; reflexivity.
Qed.

Section TaxiFlyClaims.
Import TaxiFlyScanDevice.

(** C9.  The plan yields a set and a wait for taxi and then a set and a
    wait for fly, and no message that takes data; in every run of it the
    events form a prefix of: taxi written, taxi back to Done, fly written,
    fly back to Done.  So fly is written only after taxi has reached
    Done. *)
Theorem C9_plan_runs_taxi_then_fly
    (d : Device) (a b taxi_now fly_now : string) (r : Run) :
  taxi_enum_strs d !! 1 = Some a ->
  fly_enum_strs d !! 1 = Some b ->
  rtc step (RE (fst (plan d)) taxi_now fly_now) r ->
  plan d = ([set taxi a 0; wait 0; set fly b 1; wait 1], None) /\
  existsb takes_data (fst (plan d)) = false /\
  history r `prefix_of` script a b.
Proof.
  intros Ha Hb Hrun.
  assert (Hplan : plan d = ([set taxi a 0; wait 0; set fly b 1; wait 1], None)).
  { unfold plan. rewrite Ha, Hb. reflexivity. }
  rewrite Hplan in *. split; [reflexivity|]. split; [reflexivity|].
  apply (stage_history a b (view r)).
  eapply run_stays_in_stages; [|exact Hrun].
  unfold stages, view, RE, mv; cbn. apply elem_of_cons. left. reflexivity.
Qed.

(** The run recorded in the notebook: both records are busy records. *)
Lemma C9_witness_notebook_run :
  history finished_run `prefix_of` script "Busy" "Busy".
Proof.
  apply (C9_plan_runs_taxi_then_fly busy_records "Busy" "Busy" "Done" "Done"
           finished_run eq_refl eq_refl finished_run_reachable).
Defined.

End TaxiFlyClaims.

(** C10.  In every state, whatever the busy record shows and whether or
    not the write reaches it, [kickoff] returns a status that is already
    resolved with success; a write that is lost leaves the busy record as
    it was and is not reported. *)
Theorem C10_kickoff_status_is_resolved (s : State) :
  (exists k s',
      MyFlyer.kickoff s = (Ok k, s') /\
      heap s' !! k = Some resolved /\
      busy_value s' = if link_up s then "Busy" else busy_value s) /\
  (exists k s',
      BusyFlyerDevice.kickoff s = (Ok k, s') /\
      heap s' !! k = Some resolved /\
      busy_value s' = if link_up s then "Busy" else busy_value s).
Proof.
  split; eexists _, _.
  - split; [apply MyFlyer_kickoff_eq|]. split; [|reflexivity].
    cbn [after_kickoff heap]. apply lookup_snoc2.
  - split; [apply BusyFlyerDevice_kickoff_eq|]. split; [|reflexivity].
    cbn [after_kickoff heap]. apply lookup_snoc2.
Qed.

(** * Further properties *)

(** ** What a computation leaves alone *)

Lemma preserves_bind {A B C} (f : State -> C) (m : M A) (k : A -> M B) :
  preserves f m -> (forall a, preserves f (k a)) -> preserves f (m ≫= k).
Proof.
  intros Hm Hk s. unfold mbind, M_bind, bind.
  specialize (Hm s). destruct (m s) as [[a|e] s1]; cbn in *.
  - rewrite Hk. exact Hm.
  - exact Hm.
Qed.

Lemma preserves_ret {A C} (f : State -> C) (a : A) : preserves f (mret a).
Proof. intros s. reflexivity. Qed.

Lemma preserves_raise {A C} (f : State -> C) (e : exn) : preserves f (@raise A e).
Proof. intros s. reflexivity. Qed.

Lemma preserves_gets {A C} (f : State -> C) (g : State -> A) : preserves f (gets g).
Proof. intros s. reflexivity. Qed.

Lemma preserves_index {C} (f : State -> C) l i : preserves f (index l i).
Proof. intros s. unfold index. destruct (l !! i); reflexivity. Qed.

Lemma time_time_beside_clock : preserves beside_clock time_time.
Proof. intros s. reflexivity. Qed.

Lemma fill_beside_clock ws : forall i t acc,
  preserves beside_clock (BusyFlyerDevice.fill ws i t acc).
Proof.
  induction ws as [|[nm w] ws IH]; intros i t acc; cbn [BusyFlyerDevice.fill].
  - apply preserves_ret.
  - apply preserves_bind; [apply preserves_index|]. intros v. apply IH.
Qed.

Ltac keeps :=
  repeat first
    [ apply preserves_ret | apply preserves_raise | apply preserves_gets
    | apply preserves_index | apply time_time_beside_clock
    | apply fill_beside_clock
    | apply preserves_bind; [|intros ?] ].

Lemma MyFlyer_body_beside_clock i : preserves beside_clock (MyFlyer.collect_body i).
Proof. unfold MyFlyer.collect_body. keeps. Qed.

Lemma BusyFlyerDevice_body_beside_clock i :
  preserves beside_clock (BusyFlyerDevice.collect_body i).
Proof.
  unfold BusyFlyerDevice.collect_body. keeps.
  match goal with |- preserves _ (match ?x with _ => _ end) => destruct x end; keeps.
Qed.

Lemma MyFlyer_loop_beside_clock n i :
  preserves beside_clock (MyFlyer.collect_loop n i).
Proof.
  unfold MyFlyer.collect_loop. destruct (i <? n)%nat.
  - apply preserves_bind; [apply MyFlyer_body_beside_clock|].
    intros d. apply preserves_ret.
  - apply preserves_ret.
Qed.

Lemma BusyFlyerDevice_loop_beside_clock n i :
  preserves beside_clock (BusyFlyerDevice.collect_loop n i).
Proof.
  unfold BusyFlyerDevice.collect_loop. destruct (i <? n)%nat.
  - apply preserves_bind; [apply BusyFlyerDevice_body_beside_clock|].
    intros d. apply preserves_ret.
  - apply preserves_ret.
Qed.

Lemma beside_clock_cycle s s' :
  beside_clock s' = beside_clock s -> beside_cycle s' = beside_cycle s.
Proof. unfold beside_clock, beside_cycle. intros H. injection H as -> -> -> -> -> -> -> -> _ ->. reflexivity. Qed.

Lemma beside_clock_status s s' :
  beside_clock s' = beside_clock s -> completion_status s' = completion_status s.
Proof. unfold beside_clock. intros H. injection H as _ _ _ _ _ _ _ _ -> _. reflexivity. Qed.

Lemma MyFlyer_next_beside_cycle g : preserves beside_cycle (MyFlyer.collect_next g).
Proof.
  intros s. destruct g as [|n i|]; cbn [MyFlyer.collect_next].
  - unfold mbind, M_bind, bind, modify, gets. cbn [snd fst].
    apply (beside_clock_cycle (set_completion_status None s)) .
    apply MyFlyer_loop_beside_clock.
  - apply beside_clock_cycle, MyFlyer_loop_beside_clock.
  - reflexivity.
Qed.

Lemma BusyFlyerDevice_next_beside_cycle g :
  preserves beside_cycle (BusyFlyerDevice.collect_next g).
Proof.
  intros s. destruct g as [|n i|]; cbn [BusyFlyerDevice.collect_next].
  - unfold mbind, M_bind, bind, modify, gets. cbn [snd fst].
    apply (beside_clock_cycle (set_completion_status None s)).
    apply BusyFlyerDevice_loop_beside_clock.
  - apply beside_clock_cycle, BusyFlyerDevice_loop_beside_clock.
  - reflexivity.
Qed.

Lemma MyFlyer_first_next_status s :
  completion_status (snd (MyFlyer.collect_next MyFlyer.collect s)) = None.
Proof.
  cbn [MyFlyer.collect_next MyFlyer.collect].
  unfold mbind, M_bind, bind, modify, gets. cbn [snd fst].
  apply (beside_clock_status (set_completion_status None s)).
  apply MyFlyer_loop_beside_clock.
Qed.

Lemma BusyFlyerDevice_first_next_status s :
  completion_status (snd (BusyFlyerDevice.collect_next BusyFlyerDevice.collect s)) = None.
Proof.
  cbn [BusyFlyerDevice.collect_next BusyFlyerDevice.collect].
  unfold mbind, M_bind, bind, modify, gets. cbn [snd fst].
  apply (beside_clock_status (set_completion_status None s)).
  apply BusyFlyerDevice_loop_beside_clock.
Qed.

Lemma later_next_status g s :
  g <> Unstarted ->
  completion_status (snd (MyFlyer.collect_next g s)) = completion_status s /\
  completion_status (snd (BusyFlyerDevice.collect_next g s)) = completion_status s.
Proof.
  intros Hg. destruct g as [|n i|]; [congruence| |split; reflexivity].
  split; apply beside_clock_status;
    [apply MyFlyer_loop_beside_clock | apply BusyFlyerDevice_loop_beside_clock].
Qed.

(** X4.  The first advance of a [collect] generator ends the cycle
    whatever comes of it, an [IndexError] on the first document included:
    the completion status is [None] afterwards, so [MyFlyer.complete]
    raises and [BusyFlyerDevice.complete] returns [None] until the next
    [kickoff]. *)
Theorem X4_collect_first_advance_ends_cycle (s : State) :
  (let s' := snd (MyFlyer.collect_next MyFlyer.collect s) in
   completion_status s' = None /\
   MyFlyer.complete s' = (Raise (RuntimeError "No collection in progress"), s')) /\
  (let s' := snd (BusyFlyerDevice.collect_next BusyFlyerDevice.collect s) in
   completion_status s' = None /\
   BusyFlyerDevice.complete s' = (Ok None, s')).
Proof.
  cbn zeta. split.
  - pose proof (MyFlyer_first_next_status s) as H. split; [exact H|].
    unfold MyFlyer.complete, mbind, M_bind, bind, gets. rewrite H. reflexivity.
  - pose proof (BusyFlyerDevice_first_next_status s) as H. split; [exact H|].
    unfold BusyFlyerDevice.complete, gets. rewrite H. reflexivity.
Qed.


(** ** When [collect] raises *)

Lemma out_of_range (l : list float) i : length l <= i -> l !! i = None.
Proof. apply lookup_ge_None_2. Qed.

Lemma MyFlyer_body_raises s i :
  length (wave (t_array s)) <= i \/
  length (wave (x_array s)) <= i \/
  length (wave (y_array s)) <= i ->
  fst (MyFlyer.collect_body i s) = Raise IndexError.
Proof.
  intros H.
  unfold MyFlyer.collect_body, mbind, M_bind, bind, gets, index.
  lazy beta iota zeta delta [ret raise mret M_ret].
  destruct (wave (t_array s) !! i) as [t|] eqn:Et; [|reflexivity].
  lazy beta iota zeta delta [ret raise mret M_ret].
  destruct (wave (x_array s) !! i) as [x|] eqn:Ex; [|reflexivity].
  lazy beta iota zeta delta [ret raise mret M_ret].
  destruct (wave (y_array s) !! i) as [y|] eqn:Ey; [|reflexivity].
  apply lookup_lt_Some in Et, Ex, Ey. lia.
Qed.

Lemma MyFlyer_loop_raises k : forall i s fuel n,
  i + k < n ->
  i + k <= length (wave (t_array s)) ->
  i + k <= length (wave (x_array s)) ->
  i + k <= length (wave (y_array s)) ->
  (length (wave (t_array s)) <= i + k \/
   length (wave (x_array s)) <= i + k \/
   length (wave (y_array s)) <= i + k) ->
  k < fuel ->
  fst (list_of MyFlyer.collect_next fuel (Suspended n i) s) = Raise IndexError.
Proof.
  induction k as [|k IH]; intros i s fuel n Hn Ht Hx Hy Hout Hf;
    (destruct fuel as [|fuel]; [lia|]).
  - rewrite Nat.add_0_r in *.
    cbn [list_of MyFlyer.collect_next].
    unfold mbind, M_bind, bind, MyFlyer.collect_loop.
    replace (i <? n)%nat with true by (symmetry; apply Nat.ltb_lt; lia).
    unfold mbind, M_bind, bind.
    pose proof (MyFlyer_body_raises s i Hout) as Hb.
    destruct (MyFlyer.collect_body i s) as [[d|e] s1]; cbn in Hb; [discriminate|].
    injection Hb as ->. reflexivity.
  - cbn [list_of MyFlyer.collect_next].
    unfold mbind, M_bind, bind, MyFlyer.collect_loop.
    replace (i <? n)%nat with true by (symmetry; apply Nat.ltb_lt; lia).
    unfold mbind, M_bind, bind.
    rewrite MyFlyer_body_ok by lia.
    cbn [mret M_ret ret].
    specialize (IH (S i) (after_reads 2 s) fuel n).
    cbn [after_reads t_array x_array y_array] in IH.
    replace (S i + k) with (i + S k) in IH by lia.
    specialize (IH Hn Ht Hx Hy Hout ltac:(lia)).
    destruct (list_of MyFlyer.collect_next fuel (Suspended n (S i)) (after_reads 2 s))
      as [[r|e] s1]; cbn in IH; [discriminate|].
    injection IH as ->. reflexivity.
Qed.

Lemma bind_raises {A B} (m : M A) (k : A -> M B) s e :
  fst (m s) = Raise e -> fst ((m ≫= k) s) = Raise e.
Proof.
  unfold mbind, M_bind, bind. destruct (m s) as [[a|e'] s1]; cbn; [discriminate|].
  intros H. injection H as ->. reflexivity.
Qed.

Lemma bind_step {A B} (m : M A) (k : A -> M B) s a s1 :
  m s = (Ok a, s1) -> (m ≫= k) s = k a s1.
Proof. unfold mbind, M_bind, bind. intros ->. reflexivity. Qed.

Lemma fill_raises ws : forall i t acc s,
  Exists (fun item => length (wave (snd item)) <= i) ws ->
  fst (BusyFlyerDevice.fill ws i t acc s) = Raise IndexError.
Proof.
  induction ws as [|[nm w] ws IH]; intros i t acc s H; [inversion H|].
  cbn [BusyFlyerDevice.fill]. unfold index.
  destruct (wave w !! i) as [v|] eqn:E.
  - rewrite (bind_step _ _ s v s eq_refl). apply IH.
    inversion H as [? ? Hw|? ? Hw]; subst; [|exact Hw].
    cbn in Hw. apply lookup_lt_Some in E. lia.
  - apply bind_raises. reflexivity.
Qed.

Lemma BusyFlyerDevice_body_raises s i :
  length (wave (t_array s)) <= i \/
  length (wave (x_array s)) <= i \/
  length (wave (y_array s)) <= i ->
  fst (BusyFlyerDevice.collect_body i s) = Raise IndexError.
Proof.
  intros H. unfold BusyFlyerDevice.collect_body.
  rewrite (bind_step time_time _ s _ _ eq_refl).
  rewrite (bind_step (gets BusyFlyerDevice.waves) _ _ _ _ eq_refl).
  apply bind_raises, fill_raises.
  unfold BusyFlyerDevice.waves. cbn [t_array x_array y_array log set_ticks].
  rewrite !Exists_cons. cbn [snd]. tauto.
Qed.

Lemma BusyFlyerDevice_loop_raises k : forall i s fuel n,
  i + k < n ->
  i + k <= length (wave (t_array s)) ->
  i + k <= length (wave (x_array s)) ->
  i + k <= length (wave (y_array s)) ->
  (length (wave (t_array s)) <= i + k \/
   length (wave (x_array s)) <= i + k \/
   length (wave (y_array s)) <= i + k) ->
  k < fuel ->
  fst (list_of BusyFlyerDevice.collect_next fuel (Suspended n i) s)
    = Raise IndexError.
Proof.
  induction k as [|k IH]; intros i s fuel n Hn Ht Hx Hy Hout Hf;
    (destruct fuel as [|fuel]; [lia|]).
  - rewrite Nat.add_0_r in *.
    cbn [list_of BusyFlyerDevice.collect_next].
    unfold mbind, M_bind, bind, BusyFlyerDevice.collect_loop.
    replace (i <? n)%nat with true by (symmetry; apply Nat.ltb_lt; lia).
    unfold mbind, M_bind, bind.
    pose proof (BusyFlyerDevice_body_raises s i Hout) as Hb.
    destruct (BusyFlyerDevice.collect_body i s) as [[d|e] s1]; cbn in Hb;
      [discriminate|].
    injection Hb as ->. reflexivity.
  - cbn [list_of BusyFlyerDevice.collect_next].
    unfold mbind, M_bind, bind, BusyFlyerDevice.collect_loop.
    replace (i <? n)%nat with true by (symmetry; apply Nat.ltb_lt; lia).
    unfold mbind, M_bind, bind.
    rewrite BusyFlyerDevice_body_ok by lia.
    cbn [mret M_ret ret].
    specialize (IH (S i) (after_reads 2 s) fuel n).
    cbn [after_reads t_array x_array y_array] in IH.
    replace (S i + k) with (i + S k) in IH by lia.
    specialize (IH Hn Ht Hx Hy Hout ltac:(lia)).
    destruct (list_of BusyFlyerDevice.collect_next fuel (Suspended n (S i))
                (after_reads 2 s))
      as [[r|e] s1]; cbn in IH; [discriminate|].
    injection IH as ->. reflexivity.
Qed.

Lemma MyFlyer_collect_cases (s : State) :
  let nt := length (wave (t_array s)) in
  let nx := length (wave (x_array s)) in
  let ny := length (wave (y_array s)) in
  (nt <= nx /\ nt <= ny /\
   fst (list_of MyFlyer.collect_next (S nt) MyFlyer.collect s) =
     Ok (Some (MyFlyer_docs (clock s) (t0 s) (wave (t_array s))
                 (wave (x_array s)) (wave (y_array s)) 0 nt (ticks s)))) \/
  ((nx < nt \/ ny < nt) /\
   fst (list_of MyFlyer.collect_next (S nt) MyFlyer.collect s) = Raise IndexError).
Proof.
  cbn zeta.
  destruct (decide (length (wave (t_array s)) <= length (wave (x_array s)) /\
                    length (wave (t_array s)) <= length (wave (y_array s))))
    as [[Hx Hy]|Hno].
  - left. rewrite MyFlyer_collect_ok by lia. auto.
  - right. split; [lia|]. rewrite MyFlyer_start.
    set (m := length (wave (x_array s)) `min` length (wave (y_array s))).
    apply (MyFlyer_loop_raises m 0 (set_completion_status None s)); cbn; lia.
Qed.

Lemma BusyFlyerDevice_collect_cases (s : State) :
  let n := Z.to_nat (number_read (t_array s)) in
  let nt := length (wave (t_array s)) in
  let nx := length (wave (x_array s)) in
  let ny := length (wave (y_array s)) in
  (n <= nt /\ n <= nx /\ n <= ny /\
   fst (list_of BusyFlyerDevice.collect_next (S n) BusyFlyerDevice.collect s) =
     Ok (Some (BusyFlyerDevice_docs (name s) (clock s) (t0 s) (wave (t_array s))
                 (wave (x_array s)) (wave (y_array s)) 0 n (ticks s)))) \/
  ((nt < n \/ nx < n \/ ny < n) /\
   fst (list_of BusyFlyerDevice.collect_next (S n) BusyFlyerDevice.collect s)
     = Raise IndexError).
Proof.
  cbn zeta. rewrite BusyFlyerDevice_start.
  set (n := Z.to_nat (number_read (t_array s))).
  destruct (decide (n <= length (wave (t_array s)) /\
                    n <= length (wave (x_array s)) /\
                    n <= length (wave (y_array s))))
    as [(Ht & Hx & Hy)|Hno].
  - left. pose proof (BusyFlyerDevice_loop_ok n 0 (set_completion_status None s) (S n))
      as E.
    cbn [Nat.add] in E. rewrite E by (cbn; lia). auto.
  - right. split; [lia|].
    set (m := length (wave (t_array s)) `min`
               (length (wave (x_array s)) `min` length (wave (y_array s)))).
    apply (BusyFlyerDevice_loop_raises m 0 (set_completion_status None s));
      cbn; lia.
Qed.

(** X2.  [list(MyFlyer.collect())] ends within one advance more than
    the time array has samples, in one of two ways: it returns as many
    documents as the time array has samples, exactly when neither other
    array is shorter; otherwise it raises [IndexError] and returns no
    document at all.  No other exception is raised. *)
Theorem X2_MyFlyer_collect_outcome (s : State) :
  let nt := length (wave (t_array s)) in
  let nx := length (wave (x_array s)) in
  let ny := length (wave (y_array s)) in
  match fst (list_of MyFlyer.collect_next (S nt) MyFlyer.collect s) with
  | Ok (Some docs) => length docs = nt /\ nt <= nx /\ nt <= ny
  | Ok None => False
  | Raise e => e = IndexError /\ (nx < nt \/ ny < nt)
  end.
Proof.
  cbn zeta. destruct (MyFlyer_collect_cases s) as [(Hx & Hy & E)|[Hno E]];
    rewrite E.
  - rewrite MyFlyer_docs_length. auto.
  - auto.
Qed.

(** X3.  [list(BusyFlyerDevice.collect())] runs over [number_read] of
    the time record: it returns that many documents exactly when all
    three arrays hold at least that many samples, and raises
    [IndexError] otherwise.  The in-place shift of the time value never
    raises [KeyError]. *)
Theorem X3_BusyFlyerDevice_collect_outcome (s : State) :
  let n := Z.to_nat (number_read (t_array s)) in
  let nt := length (wave (t_array s)) in
  let nx := length (wave (x_array s)) in
  let ny := length (wave (y_array s)) in
  match fst (list_of BusyFlyerDevice.collect_next (S n)
               BusyFlyerDevice.collect s) with
  | Ok (Some docs) => length docs = n /\ n <= nt /\ n <= nx /\ n <= ny
  | Ok None => False
  | Raise e => e = IndexError /\ (nt < n \/ nx < n \/ ny < n)
  end.
Proof.
  cbn zeta.
  destruct (BusyFlyerDevice_collect_cases s) as [(Ht & Hx & Hy & E)|[Hno E]];
    rewrite E.
  - rewrite BusyFlyerDevice_docs_length. auto.
  - auto.
Qed.

(** ** Notifications *)

(* cb when not done *)
Lemma cb_ignores (w : Callback) (s : State) :
  str_in (busy_value s) (BusyStatus_value done) = false -> cb w s = (Ok tt, s).
Proof. intros H. rewrite cb_eq, H. reflexivity. Qed.

Lemma cb_without_status (w : Callback) (s : State) :
  completion_status s = None ->
  str_in (busy_value s) (BusyStatus_value done) = true ->
  cb w s = (Raise AttributeError, s).
Proof. intros Hc H. rewrite cb_eq, H, Hc. reflexivity. Qed.

Lemma run_callbacks_ignore l : forall s,
  str_in (busy_value s) (BusyStatus_value done) = false ->
  run_callbacks l s = s.
Proof.
  induction l as [|w l IH]; intros s H; [reflexivity|].
  cbn [run_callbacks]. rewrite cb_ignores by exact H. cbn [snd]. apply IH, H.
Qed.

Lemma run_callbacks_without_status l : forall s,
  completion_status s = None -> run_callbacks l s = s.
Proof.
  induction l as [|w l IH]; intros s H; [reflexivity|].
  cbn [run_callbacks].
  destruct (str_in (busy_value s) (BusyStatus_value done)) eqn:E.
  - rewrite cb_without_status by assumption. cbn [snd]. apply IH, H.
  - rewrite cb_ignores by assumption. cbn [snd]. apply IH, H.
Qed.

(** X7.  A notification of a state that does not occur in the done
    sentinel, such as Busy, changes the busy value and nothing else: no
    watcher resolves a status, however many are subscribed. *)
Theorem X7_notification_other_than_Done_resolves_nothing (v : string) (s : State) :
  str_in v (BusyStatus_value done) = false ->
  notify v s = set_busy_value v s.
Proof. intros H. unfold notify. apply run_callbacks_ignore. exact H. Qed.

(** The hypothesis of X7 holds for Busy. *)
Lemma X7_witness_Busy_notification :
  notify "Busy" armed = set_busy_value "Busy" armed.
Proof.
  apply (X7_notification_other_than_Done_resolves_nothing "Busy" armed).
  reflexivity.
Defined.

(** X8.  With no cycle in flight (after [collect], or before the first
    [kickoff]) a notification changes the busy value and nothing else;
    when it shows the done sentinel every watcher raises
    [AttributeError] on the missing status, and the error stays inside
    the notification. *)
Theorem X8_notification_without_cycle (v : string) (w : Callback) (s : State) :
  completion_status s = None ->
  notify v s = set_busy_value v s /\
  (str_in v (BusyStatus_value done) = true ->
   cb w (set_busy_value v s) = (Raise AttributeError, set_busy_value v s)).
Proof.
  intros H. split.
  - unfold notify. apply run_callbacks_without_status. exact H.
  - intros Hv. apply cb_without_status; [exact H|exact Hv].
Qed.

Lemma run_callbacks_on_Done l : forall (s : State) (r : nat) (d : DeviceStatus),
  completion_status s = Some r ->
  heap s !! r = Some d ->
  str_in (busy_value s) (BusyStatus_value done) = true ->
  let s' := run_callbacks l s in
  completion_status s' = Some r /\
  busy_value s' = busy_value s /\
  subscribers s' = subscribers s /\
  heap s' !! r = Some (if st_done d then d else
                         match l with [] => d | _ :: _ => resolved end).
Proof.
  induction l as [|w l IH]; intros s r d Hc Hr Hv; cbn zeta.
  - cbn [run_callbacks]. destruct (st_done d); auto.
  - cbn [run_callbacks].
    destruct (cb_on_Done w s r d Hc Hr Hv) as (Hc1 & Hb1 & Hs1 & _ & Hr1 & _).
    assert (Hv1 : str_in (busy_value (snd (cb w s))) (BusyStatus_value done) = true)
      by (rewrite Hb1; exact Hv).
    destruct (IH (snd (cb w s)) r _ Hc1 Hr1 Hv1) as (Hc2 & Hb2 & Hs2 & Hr2).
    split; [exact Hc2|]. split; [congruence|]. split; [congruence|].
    rewrite Hr2. destruct (st_done d) eqn:Ed.
    + rewrite Ed. reflexivity.
    + cbn [resolved st_done]. reflexivity.
Qed.

(** X6.  After a [kickoff] in any state, a notification of Done resolves
    the completion status of that cycle with success, whatever watchers
    of earlier cycles are still subscribed and whether or not the write
    had reached the record; [complete] then returns that resolved
    status. *)
Theorem X6_Done_after_kickoff_resolves (s : State) :
  (let s2 := notify "Done" (snd (MyFlyer.kickoff s)) in
   exists r, MyFlyer.complete s2 = (Ok r, s2) /\ heap s2 !! r = Some resolved) /\
  (let s2 := notify "Done" (snd (BusyFlyerDevice.kickoff s)) in
   exists r, BusyFlyerDevice.complete s2 = (Ok (Some r), s2) /\
             heap s2 !! r = Some resolved).
Proof.
  cbn zeta. rewrite MyFlyer_kickoff_eq, BusyFlyerDevice_kickoff_eq. cbn [snd].
  assert (H : forall b,
    let s2 := notify "Done" (after_kickoff b s) in
    completion_status s2 = Some (length (heap s)) /\
    heap s2 !! length (heap s) = Some resolved).
  { intros b. cbn zeta. unfold notify.
    destruct (run_callbacks_on_Done
                (subscribers (set_busy_value "Done" (after_kickoff b s)))
                (set_busy_value "Done" (after_kickoff b s))
                (length (heap s)) (status_after_kickoff b s))
      as (Hc & _ & _ & Hr).
    - reflexivity.
    - cbn [set_busy_value after_kickoff heap].
      apply list_lookup_middle. reflexivity.
    - reflexivity.
    - split; [exact Hc|]. rewrite Hr.
      cbn [set_busy_value after_kickoff subscribers].
      unfold status_after_kickoff.
      destruct (str_in (seen_on_subscribe b s) (BusyStatus_value done));
        cbn [resolved fresh_status st_done]; [reflexivity|].
      destruct (subscribers s); reflexivity. }
  split; exists (length (heap s)); destruct (H true) as [Hc1 Hr1];
    destruct (H false) as [Hc2 Hr2].
  - split; [|exact Hr1].
    unfold MyFlyer.complete, mbind, M_bind, bind, gets. rewrite Hc1. reflexivity.
  - split; [|exact Hr2].
    unfold BusyFlyerDevice.complete, gets. rewrite Hc2. reflexivity.
Qed.

(** The hypothesis of X8 holds after a [collect]. *)
Lemma X8_witness_drained :
  notify "Done" drained = set_busy_value "Done" drained.
Proof.
  apply (X8_notification_without_cycle "Done" {| installed_with := 0 |} drained).
  vm_compute. reflexivity.
Defined.

(** ** The names of [describe_collect] and of [collect] *)

(** X1.  Whenever [list(MyFlyer.collect())] returns, the keys of [data]
    and of [timestamps] of every document are exactly the keys that
    [MyFlyer.describe_collect] announces for the one stream it names
    after the device. *)
Theorem X1_MyFlyer_describe_collect_names (s : State) (docs : list Doc) :
  fst (list_of MyFlyer.collect_next (S (length (wave (t_array s))))
         MyFlyer.collect s) = Ok (Some docs) ->
  exists schema,
    MyFlyer_describe_collect s = {[ name s := schema ]} /\
    forall d, d ∈ docs ->
      dom (data d) = dom schema /\ dom (timestamps d) = dom schema.
Proof.
  intros H. eexists. split; [reflexivity|].
  destruct (MyFlyer_collect_cases s) as [(_ & _ & E)|[_ E]];
    rewrite E in H; [|discriminate H].
  injection H as <-. intros d Hd.
  apply list_elem_of_lookup in Hd as [i Hd].
  apply MyFlyer_docs_lookup in Hd as [_ ->].
  rewrite !dom_insert_L, !dom_singleton_L.
  match goal with |- dom (data ?x) = _ /\ _ => 
    destruct (MyFlyer_doc_names (clock s) (t0 s) (wave (t_array s) !!! (0 + i))
                (wave (x_array s) !!! (0 + i)) (wave (y_array s) !!! (0 + i))
                (ticks s + 2 * i)) as [-> ->] end.
  split; names_equal.
Qed.

(** The hypothesis of X1 holds on a device with three samples in each
    array. *)
Lemma X1_witness_idle :
  exists docs schema,
    fst (list_of MyFlyer.collect_next 4 MyFlyer.collect idle) = Ok (Some docs) /\
    MyFlyer_describe_collect idle = {[ "ifly" := schema ]} /\
    forall d, d ∈ docs -> dom (data d) = dom schema.
Proof.
  eexists. 
  assert (H : fst (list_of MyFlyer.collect_next 4 MyFlyer.collect idle)
              = Ok (Some (MyFlyer_docs wall_clock 0%float three three three 0 3 0)))
    by (vm_compute; reflexivity).
  destruct (X1_MyFlyer_describe_collect_names idle _ H) as (schema & Hs & Hd).
  exists schema. split; [exact H|]. split; [exact Hs|].
  intros d Hin. apply (Hd d Hin).
Defined.

(** X13.  The same for [BusyFlyerDevice]: the keys its [collect] loop
    writes are the keys its [describe_collect] loop announces, for every
    device name. *)
Theorem X13_BusyFlyerDevice_describe_collect_names (s : State) (docs : list Doc) :
  fst (list_of BusyFlyerDevice.collect_next
         (S (Z.to_nat (number_read (t_array s))))
         BusyFlyerDevice.collect s) = Ok (Some docs) ->
  exists schema,
    BusyFlyerDevice_describe_collect s = {[ name s := schema ]} /\
    forall d, d ∈ docs ->
      dom (data d) = dom schema /\ dom (timestamps d) = dom schema.
Proof.
  intros H. eexists. split; [reflexivity|].
  destruct (BusyFlyerDevice_collect_cases s) as [(_ & _ & _ & E)|[_ E]];
    rewrite E in H; [|discriminate H].
  injection H as <-. intros d Hd.
  apply list_elem_of_lookup in Hd as [i Hd].
  apply BusyFlyerDevice_docs_lookup in Hd as [_ ->].
  cbn [foldl BusyFlyerDevice_wave_pvnames fst snd].
  rewrite !dom_insert_L, !dom_empty_L.
  destruct (BusyFlyerDevice_doc_names (name s) (clock s) (t0 s)
              (wave (t_array s) !!! (0 + i))
              (wave (x_array s) !!! (0 + i)) (wave (y_array s) !!! (0 + i))
              (ticks s + 2 * i)) as [-> ->].
  split; names_equal.
Qed.

(** The hypothesis of X13 holds on a device with three samples in each
    array. *)
Lemma X13_witness_idle :
  exists docs schema,
    fst (list_of BusyFlyerDevice.collect_next 4 BusyFlyerDevice.collect idle)
      = Ok (Some docs) /\
    BusyFlyerDevice_describe_collect idle = {[ "ifly" := schema ]} /\
    forall d, d ∈ docs -> dom (data d) = dom schema.
Proof.
  eexists.
  assert (H : fst (list_of BusyFlyerDevice.collect_next 4
                     BusyFlyerDevice.collect idle)
              = Ok (Some (BusyFlyerDevice_docs "ifly" wall_clock 0%float
                            three three three 0 3 0)))
    by (vm_compute; reflexivity).
  destruct (X13_BusyFlyerDevice_describe_collect_names idle _ H)
    as (schema & Hs & Hd).
  exists schema. split; [exact H|]. split; [exact Hs|].
  intros d Hin. apply (Hd d Hin).
Defined.

(** ** Sequences of calls *)

Lemma grows_refl s : grows s s.
Proof. split; [reflexivity|]. split; [lia|]. auto. Qed.

Lemma grows_trans s1 s2 s3 : grows s1 s2 -> grows s2 s3 -> grows s1 s3.
Proof.
  intros (P1 & L1 & D1) (P2 & L2 & D2).
  split; [etrans; eassumption|]. split; [lia|]. eauto.
Qed.

Lemma grows_same s s' :
  subscribers s' = subscribers s -> heap s' = heap s -> grows s s'.
Proof. intros Hs Hh. unfold grows. rewrite Hs, Hh. split; [reflexivity|]. split; [lia|]. auto. Qed.

Lemma cb_grows (w : Callback) (s : State) :
  let s' := snd (cb w s) in
  completion_status s' = completion_status s /\
  length (heap s') = length (heap s) /\ grows s s'.
Proof.
  cbn zeta. rewrite cb_eq.
  destruct (str_in (busy_value s) (BusyStatus_value done));
    [|split; [reflexivity|split; [reflexivity|apply grows_refl]]].
  destruct (completion_status s) as [r|] eqn:Hc;
    [|split; [exact Hc|split; [reflexivity|apply grows_refl]]].
  unfold _finished.
  destruct (heap s !! r) as [d|] eqn:Hr;
    [|split; [exact Hc|split; [reflexivity|apply grows_refl]]].
  destruct (st_done d) eqn:Ed;
    [split; [exact Hc|split; [reflexivity|apply grows_refl]]|].
  unfold grows. cbn [snd log set_heap completion_status heap subscribers].
  split; [exact Hc|]. split; [apply length_insert|].
  split; [reflexivity|]. split; [rewrite length_insert; lia|].
  intros r' d' Hr' Hd'.
  rewrite list_lookup_insert_ne; [exact Hr'|].
  intros <-. rewrite Hr in Hr'. injection Hr' as <-. congruence.
Qed.

Lemma run_callbacks_grows l : forall s,
  let s' := run_callbacks l s in
  completion_status s' = completion_status s /\
  length (heap s') = length (heap s) /\ grows s s'.
Proof.
  induction l as [|w l IH]; intros s; cbn zeta; cbn [run_callbacks].
  - split; [reflexivity|split; [reflexivity|apply grows_refl]].
  - destruct (cb_grows w s) as (C1 & L1 & G1).
    destruct (IH (snd (cb w s))) as (C2 & L2 & G2).
    split; [congruence|]. split; [congruence|]. eapply grows_trans; eassumption.
Qed.

Lemma kickoff_grows b s :
  status_in_store (after_kickoff b s) /\ grows s (after_kickoff b s).
Proof.
  split.
  - intros r Hr. cbn [after_kickoff completion_status heap] in *.
    injection Hr as <-. rewrite length_app. cbn. lia.
  - split; [cbn; apply prefix_app_r; reflexivity|].
    cbn [after_kickoff heap]. split; [rewrite length_app; lia|].
    intros r d Hr _. apply lookup_app_l_Some. exact Hr.
Qed.

Lemma call_keeps s s' :
  call s s' -> status_in_store s -> status_in_store s' /\ grows s s'.
Proof.
  intros Hcall Hwf. destruct Hcall.
  - split; [intros r Hr; discriminate Hr|apply grows_same; reflexivity].
  - rewrite MyFlyer_kickoff_eq. apply kickoff_grows.
  - assert (E : snd (MyFlyer.complete s) = s).
    { unfold MyFlyer.complete, mbind, M_bind, bind, gets.
      destruct (completion_status s); reflexivity. }
    rewrite E. split; [exact Hwf|apply grows_refl].
  - pose proof (MyFlyer_next_beside_cycle g s) as H. unfold beside_cycle in H.
    injection H as _ _ _ _ _ Hs _ Hh _.
    split; [|apply grows_same; assumption].
    intros r Hr. rewrite Hh. apply Hwf.
    destruct g as [|n i|];
      [rewrite MyFlyer_first_next_status in Hr; discriminate Hr| |exact Hr].
    destruct (later_next_status (Suspended n i) s) as [E _]; [discriminate|].
    rewrite <- E. exact Hr.
  - split; [intros r Hr; discriminate Hr|].
    apply grows_same; reflexivity.
  - rewrite BusyFlyerDevice_kickoff_eq. apply kickoff_grows.
  - split; [exact Hwf|apply grows_refl].
  - pose proof (BusyFlyerDevice_next_beside_cycle g s) as H.
    unfold beside_cycle in H. injection H as _ _ _ _ _ Hs _ Hh _.
    split; [|apply grows_same; assumption].
    intros r Hr. rewrite Hh. apply Hwf.
    destruct g as [|n i|];
      [rewrite BusyFlyerDevice_first_next_status in Hr; discriminate Hr| |exact Hr].
    destruct (later_next_status (Suspended n i) s) as [_ E]; [discriminate|].
    rewrite <- E. exact Hr.
  - unfold notify.
    destruct (run_callbacks_grows (subscribers (set_busy_value v s))
                (set_busy_value v s)) as (C & L & G).
    split.
    + intros r Hr. rewrite C in Hr. rewrite L. apply Hwf. exact Hr.
    + eapply grows_trans; [|exact G]. apply grows_same; reflexivity.
Qed.

(** X9.  Over any sequence of calls ([__init__], [kickoff], [complete],
    advancing a [collect] generator) and notifications, on either
    device: the completion status, when there is one, stays an object of
    the store; no watcher is ever unsubscribed; no status object is
    dropped; and a status object that is resolved is never changed
    again. *)
Theorem X9_calls_keep_store_and_watchers (s s' : State) :
  rtc call s s' ->
  status_in_store s ->
  status_in_store s' /\
  subscribers s `prefix_of` subscribers s' /\
  length (heap s) <= length (heap s') /\
  (forall r d, heap s !! r = Some d -> st_done d = true -> heap s' !! r = Some d).
Proof.
  intros Hrun. induction Hrun as [s|s1 s2 s3 H12 _ IH]; intros Hwf.
  - split; [exact Hwf|]. apply grows_refl.
  - destruct (call_keeps s1 s2 H12 Hwf) as [Hwf2 G12].
    destruct (IH Hwf2) as [Hwf3 G23].
    split; [exact Hwf3|]. exact (grows_trans _ _ _ G12 G23).
Qed.

Lemma second_cycle_reachable : rtc call idle second_cycle.
Proof.
  eapply rtc_l; [apply call_BusyFlyerDevice_kickoff|].
  eapply rtc_l; [apply (call_notify "Done")|].
  eapply rtc_l; [apply call_BusyFlyerDevice_complete|].
  eapply rtc_l; [apply (call_BusyFlyerDevice_next Unstarted)|].
  eapply rtc_l; [apply (call_BusyFlyerDevice_next (Suspended 3 1))|].
  eapply rtc_l; [apply (call_BusyFlyerDevice_next (Suspended 3 2))|].
  eapply rtc_l; [apply (call_BusyFlyerDevice_next (Suspended 3 3))|].
  eapply rtc_l; [apply call_BusyFlyerDevice_kickoff|].
  replace second_cycle with
    (snd (BusyFlyerDevice.kickoff
       (snd (BusyFlyerDevice.collect_next (Suspended 3 3)
       (snd (BusyFlyerDevice.collect_next (Suspended 3 2)
       (snd (BusyFlyerDevice.collect_next (Suspended 3 1)
       (snd (BusyFlyerDevice.collect_next Unstarted
       (snd (BusyFlyerDevice.complete
               (notify "Done" (snd (BusyFlyerDevice.kickoff idle)))))))))))))));
    [apply rtc_refl|].
  vm_compute. reflexivity.
Qed.

(** The hypotheses of X9 hold for two cycles on the example device. *)
Lemma X9_witness_two_cycles :
  status_in_store second_cycle /\
  subscribers idle `prefix_of` subscribers second_cycle.
Proof.
  destruct (X9_calls_keep_store_and_watchers idle second_cycle
              second_cycle_reachable) as (H1 & H2 & _).
  - intros r Hr. discriminate Hr.
  - split; [exact H1|exact H2].
Defined.

(** ** More on the taxi and fly run *)

Section TaxiFlyMore.
Import TaxiFlyScanDevice.

Ltac at_stage := unfold stages, mv; cbn; reflexivity.

Lemma step_next_stage a b k r r' :
  stages a b !! k = Some (view r) -> step r r' ->
  stages a b !! S k = Some (view r').
Proof.
  intros Hk Hstep.
  destruct r as [td [tv tm] [fv fm] gs hs].
  unfold stages, view, mv in Hk; cbn in Hk.
  do 7 (destruct k as [|k]; [
    injection Hk as <- <- <- <- <-;
    inversion Hstep as [? o v g rest Htd | ? g rest Htd Hgrp
                       | ? m o rest Htd Hm | ? o Hmov];
    subst; cbn in *; simplify_eq;
    try (destruct Hm as [?|[?|[?|?]]]; discriminate);
    try (destruct o; cbn in *; try discriminate; at_stage);
    try at_stage;
    try (specialize (Hgrp taxi); cbn in Hgrp;
         assert (true = false) by (apply Hgrp; left); discriminate);
    try (specialize (Hgrp fly); cbn in Hgrp;
         assert (true = false) by (apply Hgrp; left); discriminate) |]).
  discriminate Hk.
Qed.

Lemma nsteps_stage a b n : forall k r r',
  stages a b !! k = Some (view r) -> nsteps step n r r' ->
  stages a b !! (k + n) = Some (view r').
Proof.
  induction n as [|n IH]; intros k r r' Hk Hrun.
  - inversion Hrun; subst. rewrite Nat.add_0_r. exact Hk.
  - inversion Hrun as [|? ? r1 ? H1 Hrest]; subst.
    replace (k + S n) with (S k + n) by lia.
    eapply IH; [|exact Hrest]. eapply step_next_stage; eassumption.
Qed.

(** X10.  A run of the plan is a single line: after [n] steps it is at
    the [n]-th of the seven stages (taxi written, taxi done, wait passed,
    fly written, fly done, wait passed), whatever the order the
    RunEngine and the records are scheduled in; so no run is longer than
    six steps. *)
Theorem X10_taxi_fly_run_is_one_line
    (d : Device) (a b taxi_now fly_now : string) (n : nat) (r : Run) :
  taxi_enum_strs d !! 1 = Some a ->
  fly_enum_strs d !! 1 = Some b ->
  nsteps step n (RE (fst (plan d)) taxi_now fly_now) r ->
  n <= 6 /\ stages a b !! n = Some (view r).
Proof.
  intros Ha Hb Hrun.
  assert (Hplan : fst (plan d) = mv taxi a 0 ++ mv fly b 1).
  { unfold plan. rewrite Ha, Hb. reflexivity. }
  rewrite Hplan in Hrun.
  assert (H0 : stages a b !! 0 =
               Some (view (RE (mv taxi a 0 ++ mv fly b 1) taxi_now fly_now)))
    by reflexivity.
  pose proof (nsteps_stage a b n 0 _ r H0 Hrun) as H. cbn [Nat.add] in H.
  split; [|exact H].
  apply lookup_lt_Some in H. cbn in H. lia.
Qed.

Lemma finished_run_in_six_steps :
  nsteps step 6 (RE (fst (plan busy_records)) "Done" "Done") finished_run.
Proof.
  unfold RE, finished_run, script. cbn.
  eapply nsteps_l.
  { apply (step_set _ taxi "Busy" 0 [wait 0; set fly "Busy" 1; wait 1]).
    reflexivity. }
  cbn. eapply nsteps_l; [apply (step_remote _ taxi); reflexivity|].
  cbn. eapply nsteps_l.
  { apply (step_wait _ 0 [set fly "Busy" 1; wait 1]); [reflexivity|].
    intros o Ho. cbn in Ho. rewrite !elem_of_cons, elem_of_nil in Ho.
    destruct Ho as [Ho|[]]; injection Ho as ->; reflexivity. }
  cbn. eapply nsteps_l; [apply (step_set _ fly "Busy" 1 [wait 1]); reflexivity|].
  cbn. eapply nsteps_l; [apply (step_remote _ fly); reflexivity|].
  cbn. eapply nsteps_l.
  { apply (step_wait _ 1 []); [reflexivity|].
    intros o Ho. cbn in Ho. rewrite !elem_of_cons, elem_of_nil in Ho.
    destruct Ho as [Ho|[Ho|[]]]; [|discriminate Ho].
    injection Ho as ->. reflexivity. }
  cbn. apply nsteps_O.
Qed.

(** The hypotheses of X10 hold for the run of the notebook. *)
Lemma X10_witness_notebook_run :
  stages "Busy" "Busy" !! 6 = Some (view finished_run).
Proof.
  apply (X10_taxi_fly_run_is_one_line busy_records "Busy" "Busy" "Done" "Done"
           6 finished_run eq_refl eq_refl finished_run_in_six_steps).
Defined.

Ltac in_taxi_stages :=
  unfold taxi_stages, mv; rewrite !elem_of_cons; cbn;
  repeat first [ left; reflexivity | right ].

Lemma step_keeps_taxi_stage a r r' :
  view r ∈ taxi_stages a -> step r r' -> view r' ∈ taxi_stages a.
Proof.
  intros Hin Hstep.
  destruct r as [td [tv tm] [fv fm] gs hs].
  unfold taxi_stages, view, mv in Hin; cbn in Hin.
  rewrite !elem_of_cons, elem_of_nil in Hin.
  destruct Hin as [Hin|[Hin|[Hin|[Hin|[]]]]];
    injection Hin as -> -> -> -> ->;
    inversion Hstep as [? o v g rest Htd | ? g rest Htd Hgrp
                       | ? m o rest Htd Hm | ? o Hmov];
    subst; cbn in *; simplify_eq;
    try (destruct Hm as [?|[?|[?|?]]]; discriminate);
    try (destruct o; cbn in *; try discriminate; in_taxi_stages);
    try in_taxi_stages.
  specialize (Hgrp taxi). cbn in Hgrp.
  assert (true = false) by (apply Hgrp; left). discriminate.
Qed.

Lemma step_from_nothing r r' taxi_now fly_now :
  r = RE [] taxi_now fly_now -> step r r' -> False.
Proof.
  intros -> Hstep.
  inversion Hstep as [? o v g rest Htd | ? g rest Htd Hgrp
                     | ? m o rest Htd Hm | ? o Hmov]; subst; cbn in *;
    try discriminate.
  destruct o; discriminate.
Qed.

Lemma run_stays_in_taxi_stages a taxi_now fly_now r :
  rtc step (RE (mv taxi a 0) taxi_now fly_now) r -> view r ∈ taxi_stages a.
Proof.
  intros Hrun.
  remember (RE (mv taxi a 0) taxi_now fly_now) as r0 eqn:E.
  assert (H0 : view r0 ∈ taxi_stages a)
    by (subst r0; unfold taxi_stages, view, RE, mv; cbn;
        apply elem_of_cons; left; reflexivity).
  clear E. induction Hrun as [|r1 r2 r3 H12 _ IH]; [exact H0|].
  apply IH. eapply step_keeps_taxi_stage; eassumption.
Qed.

Lemma taxi_only_run_reachable :
  rtc step (RE (fst (plan one_state_fly)) "Done" "Done") taxi_only_run.
Proof.
  unfold RE, taxi_only_run. cbn.
  eapply rtc_l; [apply (step_set _ taxi "Busy" 0 [wait 0]); reflexivity|].
  cbn. eapply rtc_l; [apply (step_remote _ taxi); reflexivity|].
  cbn. eapply rtc_l.
  { apply (step_wait _ 0 []); [reflexivity|].
    intros o Ho. cbn in Ho. rewrite !elem_of_cons, elem_of_nil in Ho.
    destruct Ho as [Ho|[]]; injection Ho as ->; reflexivity. }
  cbn. apply rtc_refl.
Qed.

(** X12.  When [enum_strs[1]] is missing on either record the plan ends
    in [IndexError] and fly is never written.  With taxi's missing the
    plan yields nothing and nothing is written at all.  With only fly's
    missing the plan yields the whole move of taxi before it fails: taxi
    is written, and by the time the messages are used up taxi has been
    written, has returned to Done and has been waited for. *)
Theorem X12_missing_state_string_stops_before_fly
    (d : Device) (taxi_now fly_now : string) (r : Run) :
  taxi_enum_strs d !! 1 = None \/ fly_enum_strs d !! 1 = None ->
  rtc step (RE (fst (plan d)) taxi_now fly_now) r ->
  snd (plan d) = Some IndexError /\
  (forall v, Wrote fly v ∉ history r) /\
  match taxi_enum_strs d !! 1 with
  | None => fst (plan d) = [] /\ history r = []
  | Some a =>
      fst (plan d) = [set taxi a 0; wait 0] /\
      history r `prefix_of` [Wrote taxi a; Reached taxi "Done"] /\
      (todo r = [] ->
         history r = [Wrote taxi a; Reached taxi "Done"] /\
         moving (taxi_pv r) = false)
  end.
Proof.
  intros Hshort Hrun.
  destruct (taxi_enum_strs d !! 1) as [a|] eqn:Ha.
  - destruct Hshort as [Hs|Hb]; [discriminate Hs|].
    assert (Hplan : plan d = (mv taxi a 0, Some IndexError)).
    { unfold plan. rewrite Ha, Hb. reflexivity. }
    rewrite Hplan in *. split; [reflexivity|]. cbn [fst] in *.
    apply run_stays_in_taxi_stages in Hrun.
    unfold taxi_stages, view in Hrun.
    rewrite !elem_of_cons, elem_of_nil in Hrun.
    destruct Hrun as [Hin|[Hin|[Hin|[Hin|[]]]]];
      injection Hin as Ht Hm _ _ Hh; rewrite Hh, Ht.
    + split; [intros v Hv; apply elem_of_nil in Hv; exact Hv|].
      split; [reflexivity|]. split; [apply prefix_nil|]. discriminate.
    + split; [intros v Hv; rewrite elem_of_cons, elem_of_nil in Hv;
              destruct Hv as [Hv|[]]; discriminate Hv|].
      split; [reflexivity|].
      split; [exists [Reached taxi "Done"]; reflexivity|]. discriminate.
    + split; [intros v Hv; rewrite !elem_of_cons, elem_of_nil in Hv;
              destruct Hv as [Hv|[Hv|[]]]; discriminate Hv|].
      split; [reflexivity|]. split; [reflexivity|]. discriminate.
    + split; [intros v Hv; rewrite !elem_of_cons, elem_of_nil in Hv;
              destruct Hv as [Hv|[Hv|[]]]; discriminate Hv|].
      split; [reflexivity|]. split; [reflexivity|].
      intros _. split; [reflexivity|exact Hm].
  - assert (Hplan : plan d = ([], Some IndexError)).
    { unfold plan. rewrite Ha. reflexivity. }
    rewrite Hplan in *. split; [reflexivity|]. cbn [fst] in *.
    assert (E : r = RE [] taxi_now fly_now).
    { inversion Hrun as [|? r1 ? H1 _]; [reflexivity|].
      exfalso. eapply step_from_nothing; [reflexivity|exact H1]. }
    subst r. split; [|split; reflexivity]. intros v Hv. cbn in Hv.
    apply elem_of_nil in Hv. exact Hv.
Qed.

(** The hypotheses of X12 hold for a fly record with one state string:
    the run goes through the whole move of taxi, and the plan then ends
    in [IndexError]. *)
Lemma X12_witness_one_state_fly :
  snd (plan one_state_fly) = Some IndexError /\
  fst (plan one_state_fly) = [set taxi "Busy" 0; wait 0] /\
  history taxi_only_run = [Wrote taxi "Busy"; Reached taxi "Done"] /\
  moving (taxi_pv taxi_only_run) = false.
Proof.
  destruct (X12_missing_state_string_stops_before_fly one_state_fly
              "Done" "Done" taxi_only_run (or_intror eq_refl)
              taxi_only_run_reachable) as (H1 & _ & H3).
  cbn [one_state_fly taxi_enum_strs] in H3.
  change (["Done"; "Busy"] !! 1) with (Some "Busy") in H3.
  destruct H3 as (H3 & _ & H4). destruct (H4 eq_refl) as [H5 H6].
  split; [exact H1|]. split; [exact H3|]. split; [exact H5|exact H6].
Defined.

End TaxiFlyMore.
